(** * Thermal cycle profile generator: simulator and annotation layout

    A shallow embedding of [calculate_temperature_profile] (identical in
    MAIN01.py and web.py) and of the key-point annotation loop of
    [create_chart_png] (MAIN01.py) / [create_chart_image] (web.py).

    Modelling conventions.
    - Python floats are modelled by exact rationals [Q]; the comparison
      [x != 0] is [negb (Qeq_bool x 0)], [x > 0] is [Qlt_bool 0 x].
      Rounding, infinities and NaN are outside the model.
    - A float division raises ZeroDivisionError on a zero divisor; the
      enclosing [try/except Exception] turns every exception into the
      result [(None, None)].  Both are modelled in the [option] monad:
      [None] is the error result.
    - [params] is a dict with a fixed set of keys; it is a record here.
    - [profile] and [key_points] are lists extended with [append]; the
      running variables [current_time] and [current_temp] are threaded
      through an explicit [state]. *)

From Stdlib Require Import QArith Qabs Qround ZArith List String Bool Lia Lqa.
From Stdlib Require Import Sorted DecimalString Ascii NArith.
Import ListNotations.

Open Scope Q_scope.

(** ** The error monad of [try: ... except Exception: return None, None] *)

Definition bind {A B : Type} (m : option A) (k : A -> option B) : option B :=
  match m with
  | Some a => k a
  | None => None
  end.

Notation "x <- m ;; k" := (bind m (fun x => k))
  (at level 61, m at next level, right associativity).

(** ** Numbers *)

Definition Qlt_bool (x y : Q) : bool := negb (Qle_bool y x).

(** [a / b] on Python floats: ZeroDivisionError when [b == 0]. *)
Definition py_div (a b : Q) : option Q :=
  if Qeq_bool b 0 then None else Some (a / b).

(** [str(n)] for an int, as used by the f-string of the middle cycles. *)
Definition str_int (n : Z) : string := NilZero.string_of_int (Z.to_int n).

(** [range(n)]: the ints 0, 1, ..., n-1; empty when [n <= 0]. *)
Definition range (n : Z) : list Z := map Z.of_nat (seq 0 (Z.to_nat n)).

(** ** Data model *)

Record params : Type := mkParams {
  initial_temp : Q;
  initial_time : Q;
  recovery_temp : Q;
  recovery_time : Q;
  high_temp : Q;
  high_tolerance : Q;
  low_temp : Q;
  low_tolerance : Q;
  first_high_time : Q;
  first_low_time : Q;
  last_high_time : Q;
  last_low_time : Q;
  middle_high_time : Q;
  middle_low_time : Q;
  heat_rate : Q;
  cool_rate : Q;
  cycles : Z
}.

(** A profile entry is the tuple [(time, temp, description)]. *)
Definition point : Type := (Q * Q * string)%type.

Definition pt_time (pt : point) : Q := fst (fst pt).
Definition pt_temp (pt : point) : Q := snd (fst pt).
Definition pt_desc (pt : point) : string := snd pt.

Record state : Type := mkState {
  profile : list point;
  key_points : list nat;
  current_time : Q;
  current_temp : Q
}.

(** ** The simulator *)

(** [profile.append(pt); key_points.append(len(profile) - 1)] *)
Definition append_point (pt : point) (st : state) : state :=
  let profile' := profile st ++ [pt] in
  {| profile := profile';
     key_points := key_points st ++ [(List.length profile' - 1)%nat];
     current_time := current_time st;
     current_temp := current_temp st |}.

Definition set_time (t : Q) (st : state) : state :=
  {| profile := profile st; key_points := key_points st;
     current_time := t; current_temp := current_temp st |}.

Definition set_temp (T : Q) (st : state) : state :=
  {| profile := profile st; key_points := key_points st;
     current_time := current_time st; current_temp := T |}.

(** The ramp block; the source has three textual copies of it (to the
    high temperature, to the low temperature, to the recovery
    temperature) that differ in the target and in the label only. *)
Definition ramp (p : params) (target : Q) (label : string) (st : state)
  : option state :=
  let temp_diff := target - current_temp st in
  if negb (Qeq_bool temp_diff 0) then
    time_change <- py_div (Qabs temp_diff)
                     (if Qlt_bool 0 temp_diff then heat_rate p else cool_rate p) ;;
    let st1 := set_time (current_time st + time_change) st in
    let st2 := append_point (current_time st1, target, label) st1 in
    Some (set_temp target st2)
  else Some st.

(** The hold block: [current_time += d], then append the point. *)
Definition hold (duration : Q) (label : string) (st : state) : state :=
  let st1 := set_time (current_time st + duration) st in
  append_point (current_time st1, current_temp st1, label) st1.

(** The [if cycle == 0 / elif cycle == cycles - 1 / else] selection of
    [(high_time, low_time, cycle_type)]. *)
Definition select_cycle (p : params) (cycle : Z) : Q * Q * string :=
  if (cycle =? 0)%Z then
    (first_high_time p, first_low_time p, "首循环"%string)
  else if (cycle =? cycles p - 1)%Z then
    (last_high_time p, last_low_time p, "末循环"%string)
  else
    (middle_high_time p, middle_low_time p,
     ("中间循环" ++ str_int cycle)%string).

(** One iteration of [for cycle in range(params['cycles'])]. *)
Definition cycle_body (p : params) (cycle : Z) (st : state) : option state :=
  let '(high_time, low_time, cycle_type) := select_cycle p cycle in
  st1 <- ramp p (high_temp p) (cycle_type ++ "高温达到")%string st ;;
  let st2 := hold high_time (cycle_type ++ "高温结束")%string st1 in
  if (cycle <? cycles p - 1)%Z then
    st3 <- ramp p (low_temp p) (cycle_type ++ "低温达到")%string st2 ;;
    Some (hold low_time (cycle_type ++ "低温结束")%string st3)
  else Some st2.

Fixpoint for_cycles (p : params) (cs : list Z) (st : state) : option state :=
  match cs with
  | [] => Some st
  | cycle :: cs' => st' <- cycle_body p cycle st ;; for_cycles p cs' st'
  end.

(** The state after [profile = []; key_points = []; current_time = 0.0;
    current_temp = params['initial_temp']]. *)
Definition start_state (p : params) : state :=
  {| profile := []; key_points := [];
     current_time := 0; current_temp := initial_temp p |}.

(** Stage 1: the initial hold. *)
Definition initial_stage (p : params) : state :=
  let st0 := start_state p in
  let st1 := append_point (current_time st0, current_temp st0,
                           "初始温度开始"%string) st0 in
  hold (initial_time p) "初始温度结束" st1.

(** Stage 3: the recovery ramp and hold. *)
Definition recovery_stage (p : params) (st : state) : option state :=
  st1 <- ramp p (recovery_temp p) "回温温度达到" st ;;
  Some (hold (recovery_time p) "回温结束" st1).

Definition run (p : params) : option state :=
  st <- for_cycles p (range (cycles p)) (initial_stage p) ;;
  recovery_stage p st.

(** [calculate_temperature_profile]: [Some (profile, key_points)] on
    normal return, [None] for the [(None, None)] of the except branch. *)
Definition calculate_temperature_profile (p : params)
  : option (list point * list nat) :=
  st <- run p ;; Some (profile st, key_points st).

(** ** The worked scenario of the specification *)

Definition scenario : params :=
  {| initial_temp := 70; initial_time := 1 # 2;
     recovery_temp := 40; recovery_time := 1 # 2;
     high_temp := 100; high_tolerance := 2;
     low_temp := -20; low_tolerance := 2;
     first_high_time := 1 # 4; first_low_time := 2;
     last_high_time := 1 # 4; last_low_time := 2;
     middle_high_time := 1; middle_low_time := 1;
     heat_rate := 3 * 60; cool_rate := 4 * 60;
     cycles := 3 |}.

(** Times and temperatures in lowest terms, for comparing results. *)
Definition normal_point (pt : point) : point :=
  (Qred (pt_time pt), Qred (pt_temp pt), pt_desc pt).

(** ** The key-point annotation loop of the chart functions

    [plt.xlim()] and [plt.ylim()] read the view limits of the plotting
    backend, which is not part of the repository: they are the
    parameter [axes].  Every key point lies on the curve drawn before
    the loop starts, so the limits read inside the loop do not change
    between iterations.  Each [label_placement] stands for the marker,
    the two guide lines and the two [plt.text] calls of one iteration;
    the formatting of the label texts is not modelled. *)

Record axes : Type := mkAxes {
  xlim : Q * Q;
  ylim : Q * Q
}.

(** An entry [(x, y)] of the list [used_positions]. *)
Definition anchor : Type := (Q * Q)%type.

Record label_placement : Type := mkPlacement {
  lp_index : nat;
  lp_time : Q;
  lp_temp : Q;
  lp_desc : string;
  lp_overlap : bool;           (* [overlap]: the time label is bumped *)
  lp_time_label : Q * Q;       (* [(x_pos, y_text_pos)] *)
  lp_y_overlap : bool;         (* [y_overlap]: the temperature label is bumped *)
  lp_temp_label : Q * Q        (* [(x_text_pos, y_pos)] *)
}.

(** [plt.ylim()[0] + (plt.ylim()[1] - plt.ylim()[0]) * f], likewise for x. *)
Definition y_inset (ax : axes) (f : Q) : Q :=
  fst (ylim ax) + (snd (ylim ax) - fst (ylim ax)) * f.

Definition x_inset (ax : axes) (f : Q) : Q :=
  fst (xlim ax) + (snd (xlim ax) - fst (xlim ax)) * f.

(** [0.03 * (plt.xlim()[1] - plt.xlim()[0])], likewise for y. *)
Definition label_offset (ax : axes) : Q :=
  (3 # 100) * (snd (xlim ax) - fst (xlim ax)).

Definition y_threshold (ax : axes) : Q :=
  (3 # 100) * (snd (ylim ax) - fst (ylim ax)).

(** [any(abs(x_pos - used_x) < label_offset for (used_x, _) in used_positions)] *)
Definition x_overlap (ax : axes) (x_pos : Q) (used_positions : list anchor) : bool :=
  existsb (fun u => Qlt_bool (Qabs (x_pos - fst u)) (label_offset ax))
          used_positions.

(** [any(abs(y_pos - used_y) < 0.03 * (ylim range) for (_, used_y) in used_positions)] *)
Definition y_overlap (ax : axes) (y_pos : Q) (used_positions : list anchor) : bool :=
  existsb (fun u => Qlt_bool (Qabs (y_pos - snd u)) (y_threshold ax))
          used_positions.

(** The body of [for idx in key_indices] once [time], [temp] and [desc]
    have been read: both labels are placed against the one list
    [used_positions]. *)
Definition annotate_point (ax : axes) (idx : nat) (pt : point)
    (used_positions : list anchor) : label_placement * list anchor :=
  let time := pt_time pt in
  let temp := pt_temp pt in
  let x_pos := time in
  let y_text_pos := y_inset ax (2 # 100) in
  let overlap := x_overlap ax x_pos used_positions in
  let '(y_text_pos, used1) :=
    if overlap then (y_inset ax (6 # 100), used_positions)
    else (y_text_pos, used_positions ++ [(x_pos, y_text_pos)]) in
  let y_pos := temp in
  let x_text_pos := x_inset ax (2 # 100) in
  let yov := y_overlap ax y_pos used1 in
  let '(x_text_pos, used2) :=
    if yov then (x_inset ax (6 # 100), used1)
    else (x_text_pos, used1 ++ [(x_text_pos, y_pos)]) in
  ({| lp_index := idx; lp_time := time; lp_temp := temp; lp_desc := pt_desc pt;
      lp_overlap := overlap; lp_time_label := (x_pos, y_text_pos);
      lp_y_overlap := yov; lp_temp_label := (x_text_pos, y_pos) |},
   used2).

(** [key_indices = list(set(key_points)); key_indices.sort()] *)
Fixpoint insert_index (i : nat) (l : list nat) : list nat :=
  match l with
  | [] => [i]
  | j :: l' =>
      if (i <? j)%nat then i :: l
      else if (i =? j)%nat then l
      else j :: insert_index i l'
  end.

Definition key_indices (key_points : list nat) : list nat :=
  fold_right insert_index [] key_points.

(** The loop; [times[idx]] raises IndexError past the end of the
    profile, which the caller's [except] turns into a failure. *)
Fixpoint annotate_from (ax : axes) (prof : list point) (idxs : list nat)
    (used_positions : list anchor) : option (list label_placement) :=
  match idxs with
  | [] => Some []
  | idx :: idxs' =>
      pt <- nth_error prof idx ;;
      let '(pl, used') := annotate_point ax idx pt used_positions in
      pls <- annotate_from ax prof idxs' used' ;;
      Some (pl :: pls)
  end.

Definition annotate (ax : axes) (prof : list point) (key_points : list nat)
  : option (list label_placement) :=
  annotate_from ax prof (key_indices key_points) [].

(** [max(l)] and [min(l)]: ValueError on an empty sequence. *)
Definition py_max (l : list Q) : option Q :=
  match l with
  | [] => None
  | x :: l' => Some (fold_left (fun m y => if Qlt_bool m y then y else m) l' x)
  end.

Definition py_min (l : list Q) : option Q :=
  match l with
  | [] => None
  | x :: l' => Some (fold_left (fun m y => if Qlt_bool y m then y else m) l' x)
  end.

(** What a chart function hands to the backend: the annotations and,
    for MAIN01.py, the axis limits set after the loop. *)
Record chart : Type := mkChart {
  chart_labels : list label_placement;
  chart_limits : option ((Q * Q) * (Q * Q))
}.

(** MAIN01.py [create_chart_png]: [Some] for [True], [None] for the
    [False] of the except branch.  After the loop it sets
    [plt.xlim(0, max(times) * 1.15)] and
    [plt.ylim(min(0, min_temp * 1.15), max(temps) * 1.15)].  The
    description offsets [text_x], [text_y] computed in the loop are
    never used and are left out; writing the file is outside the model. *)
Definition create_chart_png (ax : axes) (prof : list point)
    (key_points : list nat) : option chart :=
  let times := map pt_time prof in
  let temps := map pt_temp prof in
  labels <- annotate ax prof key_points ;;
  max_time <- py_max times ;;
  min_temp <- py_min temps ;;
  max_temp <- py_max temps ;;
  let low := if Qlt_bool (min_temp * (115 # 100)) 0
             then min_temp * (115 # 100) else 0 in
  Some {| chart_labels := labels;
          chart_limits := Some ((0, max_time * (115 # 100)),
                                (low, max_temp * (115 # 100))) |}.

(** web.py [create_chart_image]: the same loop, no axis limits set. *)
Definition create_chart_image (ax : axes) (prof : list point)
    (key_points : list nat) : option chart :=
  labels <- annotate ax prof key_points ;;
  Some {| chart_labels := labels; chart_limits := None |}.

(** ** The layout rule as the specification words it

    Two running lists: the x-positions of the committed time-axis
    labels and the y-positions of the committed temperature-axis
    labels.  It is compared with [annotate_point] below. *)

Definition annotate_point_two_lists (ax : axes) (idx : nat) (pt : point)
    (time_used temp_used : list Q) : label_placement * (list Q * list Q) :=
  let time := pt_time pt in
  let temp := pt_temp pt in
  let overlap :=
    existsb (fun ux => Qlt_bool (Qabs (time - ux)) (label_offset ax)) time_used in
  let yov :=
    existsb (fun uy => Qlt_bool (Qabs (temp - uy)) (y_threshold ax)) temp_used in
  ({| lp_index := idx; lp_time := time; lp_temp := temp; lp_desc := pt_desc pt;
      lp_overlap := overlap;
      lp_time_label :=
        (time, if overlap then y_inset ax (6 # 100) else y_inset ax (2 # 100));
      lp_y_overlap := yov;
      lp_temp_label :=
        (if yov then x_inset ax (6 # 100) else x_inset ax (2 # 100), temp) |},
   (if overlap then time_used else time_used ++ [time],
    if yov then temp_used else temp_used ++ [temp])).

Fixpoint annotate_from_two_lists (ax : axes) (prof : list point)
    (idxs : list nat) (time_used temp_used : list Q)
  : option (list label_placement) :=
  match idxs with
  | [] => Some []
  | idx :: idxs' =>
      pt <- nth_error prof idx ;;
      let '(pl, (tu, yu)) :=
        annotate_point_two_lists ax idx pt time_used temp_used in
      pls <- annotate_from_two_lists ax prof idxs' tu yu ;;
      Some (pl :: pls)
  end.

Definition annotate_two_lists (ax : axes) (prof : list point)
    (key_points : list nat) : option (list label_placement) :=
  annotate_from_two_lists ax prof (key_indices key_points) [] [].

(** ** Predicates and counting functions used in the statements *)

(** The test that skips a ramp from temperature [a] to target [b]:
    the negation of [temp_diff != 0] with [temp_diff = b - a]. *)
Definition ramp_skipped (a b : Q) : bool := Qeq_bool (b - a) 0.

(** The rate a ramp from [a] to [b] divides by. *)
Definition ramp_rate (p : params) (a b : Q) : Q :=
  if Qlt_bool 0 (b - a) then heat_rate p else cool_rate p.

Definition b2z (b : bool) : Z := if b then 1%Z else 0%Z.

(** Number of ramps that emit no point in a run with [cycles >= 1]:
    the first ramp to the high temperature starts at the initial
    temperature, the [cycles - 1] ramps to the low temperature start at
    the high one, the [cycles - 1] later ramps to the high temperature
    start at the low one, the recovery ramp starts at the high one. *)
Definition skipped_ramps (p : params) : Z :=
  (b2z (ramp_skipped (initial_temp p) (high_temp p))
   + (cycles p - 1) * b2z (ramp_skipped (high_temp p) (low_temp p))
   + (cycles p - 1) * b2z (ramp_skipped (low_temp p) (high_temp p))
   + b2z (ramp_skipped (high_temp p) (recovery_temp p)))%Z.

(** The point count of the specification, with [k] the number of
    cycles in which a ramp is skipped and a pair of points taken off
    for each. *)
Definition claimed_point_count (p : params) (k : Z) : Z :=
  (2 + cycles p * 2 + (cycles p - 1) * 2 + 2 - 2 * k)%Z.

(** Consecutive points never go back in time. *)
Definition nondecreasing_times (prof : list point) : Prop :=
  forall i a b,
    nth_error prof i = Some a -> nth_error prof (S i) = Some b ->
    pt_time a <= pt_time b.

Definition nonnegative_durations (p : params) : Prop :=
  0 <= initial_time p /\ 0 <= recovery_time p /\
  0 <= first_high_time p /\ 0 <= first_low_time p /\
  0 <= last_high_time p /\ 0 <= last_low_time p /\
  0 <= middle_high_time p /\ 0 <= middle_low_time p.

(** A time in hours rounded to four decimals, as ten-thousandths. *)
Definition round4 (t : Q) : Z := Qfloor (t * 10000 + (1 # 2)).

(** The state after [current_time = t], the append of [(t, T, label)]
    with its key point, and [current_temp = T]. *)
Definition with_point (st : state) (t T : Q) (label : string) : state :=
  {| profile := profile st ++ [(t, T, label)];
     key_points := key_points st ++ [List.length (profile st)];
     current_time := t;
     current_temp := T |}.

(** The eight hold durations of a parameter record. *)
Definition durations (p : params) : list Q :=
  [initial_time p; recovery_time p; first_high_time p; first_low_time p;
   last_high_time p; last_low_time p; middle_high_time p; middle_low_time p].

(** The first point of stage 1 appended to the fresh lists. *)
Definition first_point_state (p : params) : state :=
  append_point (current_time (start_state p), current_temp (start_state p),
                "初始温度开始"%string) (start_state p).

(** Every key point is the index of its own profile entry. *)
Definition key_points_enumerate (st : state) : Prop :=
  key_points st = seq 0 (List.length (profile st)).

(** No point is later than the running time, and times never go back. *)
Definition time_ordered (st : state) : Prop :=
  nondecreasing_times (profile st) /\
  Forall (fun pt => pt_time pt <= current_time st) (profile st).

(** [len(profile)] as an integer. *)
Definition point_count (st : state) : Z := Z.of_nat (List.length (profile st)).

(** A ramp from [a] to [b] divides by a zero rate. *)
Definition ramp_fails (p : params) (a b : Q) : bool :=
  negb (ramp_skipped a b) && Qeq_bool (ramp_rate p a b) 0.


(** The same record with other last-cycle and middle-cycle hold times. *)
Definition with_later_cycle_times (p : params) (lh ll mh ml : Q) : params :=
  {| initial_temp := initial_temp p; initial_time := initial_time p;
     recovery_temp := recovery_temp p; recovery_time := recovery_time p;
     high_temp := high_temp p; high_tolerance := high_tolerance p;
     low_temp := low_temp p; low_tolerance := low_tolerance p;
     first_high_time := first_high_time p; first_low_time := first_low_time p;
     last_high_time := lh; last_low_time := ll;
     middle_high_time := mh; middle_low_time := ml;
     heat_rate := heat_rate p; cool_rate := cool_rate p;
     cycles := cycles p |}.

(** The scenario cut down to inputs outside the documented domain. *)
Definition scenario_with (T0 : Q) (heat : Q) (n : Z) : params :=
  {| initial_temp := T0; initial_time := 1 # 2;
     recovery_temp := 40; recovery_time := 1 # 2;
     high_temp := 100; high_tolerance := 2;
     low_temp := -20; low_tolerance := 2;
     first_high_time := 1 # 4; first_low_time := 2;
     last_high_time := 1 # 4; last_low_time := 2;
     middle_high_time := 1; middle_low_time := 1;
     heat_rate := heat; cool_rate := 4 * 60;
     cycles := n |}.

(** View limits of the scenario curve with a margin of 5% of the data
    range on each side: times 0 to 8.25 h, temperatures -20 to 100. *)
Definition scenario_axes : axes :=
  {| xlim := (- (33 # 80), 693 # 80); ylim := (- (26), 106) |}.

(** [y] is closer than the temperature threshold to [u]. *)
Definition y_near (ax : axes) (y u : Q) : Prop :=
  Qabs (y - u) < y_threshold ax.

(** A one-point curve at 3 degrees in a view of 0 to 100 degrees. *)
Definition low_point_axes : axes := {| xlim := (0, 10); ylim := (0, 100) |}.

Definition low_point_profile : list point := [(0, 3, "初始温度开始"%string)].

(** The state a ramp that is not skipped leaves behind. *)
Definition ramped (p : params) (target : Q) (label : string) (st : state)
  : state :=
  let t := current_time st
           + Qabs (target - current_temp st)
             / ramp_rate p (current_temp st) target in
  {| profile := profile st ++ [(t, target, label)];
     key_points := key_points st ++ [List.length (profile st)];
     current_time := t;
     current_temp := target |}.

Inductive ramp_outcome (p : params) (target : Q) (label : string)
    (st : state) : option state -> Prop :=
| ramp_is_skipped :
    ramp_skipped (current_temp st) target = true ->
    ramp_outcome p target label st (Some st)
| ramp_is_emitted :
    ramp_skipped (current_temp st) target = false ->
    ~ ramp_rate p (current_temp st) target == 0 ->
    ramp_outcome p target label st (Some (ramped p target label st))
| ramp_is_error :
    ramp_skipped (current_temp st) target = false ->
    ramp_rate p (current_temp st) target == 0 ->
    ramp_outcome p target label st None.

(** ** File names ([validate_filename])

    A Python [str] is a sequence of code points; the slice [[:50]]
    counts code points. *)

Definition py_str : Type := list N.

Definition codepoints (s : string) : py_str :=
  map N_of_ascii (list_ascii_of_string s).

(** The character class of the pattern: backslash, slash, star,
    question mark, colon, double quote, less, greater, bar. *)
Definition invalid_chars : py_str := [92; 47; 42; 63; 58; 34; 60; 62; 124]%N.

Definition is_invalid (c : N) : bool := existsb (N.eqb c) invalid_chars.

(** [re.sub(invalid_chars, '', filename)] *)
Definition re_sub_invalid (filename : py_str) : py_str :=
  filter (fun c => negb (is_invalid c)) filename.

(** MAIN01.py: the fallback name for an empty result, else [cleaned[:50]]. *)
Definition validate_filename (filename : py_str) : py_str :=
  let cleaned := re_sub_invalid filename in
  match cleaned with
  | [] => codepoints "temp_profile"
  | _ => firstn 50 cleaned
  end.

(** web.py: [cleaned if cleaned else "temp_profile"], no truncation. *)
Definition validate_filename_web (filename : py_str) : py_str :=
  let cleaned := re_sub_invalid filename in
  match cleaned with
  | [] => codepoints "temp_profile"
  | _ => cleaned
  end.

(** ** Parameter intake

    [typed] holds the numbers as parsed from the prompts (MAIN01.py) or
    read from the form (web.py), in the order of the keys, with the
    two rates still in degrees per minute. *)

(** [params['heat_rate'] = heat_rate_per_min * 60], likewise cooling. *)
Definition to_per_hour (typed : params) : params :=
  {| initial_temp := initial_temp typed; initial_time := initial_time typed;
     recovery_temp := recovery_temp typed; recovery_time := recovery_time typed;
     high_temp := high_temp typed; high_tolerance := high_tolerance typed;
     low_temp := low_temp typed; low_tolerance := low_tolerance typed;
     first_high_time := first_high_time typed;
     first_low_time := first_low_time typed;
     last_high_time := last_high_time typed;
     last_low_time := last_low_time typed;
     middle_high_time := middle_high_time typed;
     middle_low_time := middle_low_time typed;
     heat_rate := heat_rate typed * 60; cool_rate := cool_rate typed * 60;
     cycles := cycles typed |}.

(** [params.items()], in insertion order. *)
Definition items (p : params) : list (string * Q) :=
  [("initial_temp"%string, initial_temp p);
   ("initial_time"%string, initial_time p);
   ("recovery_temp"%string, recovery_temp p);
   ("recovery_time"%string, recovery_time p);
   ("high_temp"%string, high_temp p);
   ("high_tolerance"%string, high_tolerance p);
   ("low_temp"%string, low_temp p);
   ("low_tolerance"%string, low_tolerance p);
   ("first_high_time"%string, first_high_time p);
   ("first_low_time"%string, first_low_time p);
   ("last_high_time"%string, last_high_time p);
   ("last_low_time"%string, last_low_time p);
   ("middle_high_time"%string, middle_high_time p);
   ("middle_low_time"%string, middle_low_time p);
   ("heat_rate"%string, heat_rate p);
   ("cool_rate"%string, cool_rate p);
   ("cycles"%string, inject_Z (cycles p))].

Definition temperature_keys : list string :=
  ["initial_temp"; "recovery_temp"; "high_temp"; "low_temp"]%string.

(** The validation loop of [get_user_input]: the key of the first item
    with [value < 0 and key not in temperature_keys], whose ValueError
    makes the function return [None]. *)
Definition first_negative (its : list (string * Q)) : option string :=
  option_map fst
    (find (fun kv => Qlt_bool (snd kv) 0
                     && negb (existsb (String.eqb (fst kv)) temperature_keys))
          its).

(** MAIN01.py [get_user_input] after the prompts have been parsed. *)
Definition get_user_input (typed : params) : option params :=
  let params := to_per_hour typed in
  match first_negative (items params) with
  | Some _ => None
  | None => Some params
  end.

(** What the web form guarantees through the [min_value] of its
    widgets: durations and tolerances from 0.0, rates from 0.1 degrees
    per minute, cycles from 1. *)
Definition form_bounds (typed : params) : Prop :=
  nonnegative_durations typed /\
  0 <= high_tolerance typed /\ 0 <= low_tolerance typed /\
  (1 # 10) <= heat_rate typed /\ (1 # 10) <= cool_rate typed /\
  (1 <= cycles typed)%Z.

(** ** Further counting functions *)

(** The same record with another last-cycle low hold time and other
    tolerances. *)
Definition with_unused_fields (p : params) (ll ht lt : Q) : params :=
  {| initial_temp := initial_temp p; initial_time := initial_time p;
     recovery_temp := recovery_temp p; recovery_time := recovery_time p;
     high_temp := high_temp p; high_tolerance := ht;
     low_temp := low_temp p; low_tolerance := lt;
     first_high_time := first_high_time p; first_low_time := first_low_time p;
     last_high_time := last_high_time p; last_low_time := ll;
     middle_high_time := middle_high_time p;
     middle_low_time := middle_low_time p;
     heat_rate := heat_rate p; cool_rate := cool_rate p;
     cycles := cycles p |}.

(** The four temperatures of a parameter record. *)
Definition temperatures (p : params) : list Q :=
  [initial_temp p; high_temp p; low_temp p; recovery_temp p].

(** The time a ramp from [a] to [b] takes: nothing when it is skipped. *)
Definition ramp_time (p : params) (a b : Q) : Q :=
  if ramp_skipped a b then 0 else Qabs (b - a) / ramp_rate p a b.

(** The time of the last point of a run with [cycles >= 1]. *)
Definition total_time (p : params) : Q :=
  initial_time p
  + ramp_time p (initial_temp p) (high_temp p) + first_high_time p
  + (if (2 <=? cycles p)%Z then
       ramp_time p (high_temp p) (low_temp p) + first_low_time p
       + inject_Z (cycles p - 2)
         * (ramp_time p (low_temp p) (high_temp p) + middle_high_time p
            + ramp_time p (high_temp p) (low_temp p) + middle_low_time p)
       + ramp_time p (low_temp p) (high_temp p) + last_high_time p
     else 0)
  + ramp_time p (high_temp p) (recovery_temp p) + recovery_time p.

(** [x] is closer than the time threshold to [u]. *)
Definition x_near (ax : axes) (x u : Q) : Prop :=
  Qabs (x - u) < label_offset ax.

(** The point a placement was made for. *)
Definition placement_point (pl : label_placement) : point :=
  (lp_time pl, lp_temp pl, lp_desc pl).

(** ** The simulator with its output channel

    The except branch reports the exception before it returns
    [(None, None)]: [print] in MAIN01.py, [st.error] in web.py.  This
    is the only place where the function touches anything but its
    argument and its own locals.  [console] is what has been reported
    so far. *)




(** ** The annotation loop on arbitrary Python ints

    [key_points] as the chart functions may receive it: a list of
    ints.  [l[i]] with a negative [i] counts from the end and raises
    IndexError only outside [-len(l) <= i < len(l)]. *)

Definition py_getitem {A : Type} (l : list A) (i : Z) : option A :=
  if (i <? 0)%Z then
    if (i <? - Z.of_nat (List.length l))%Z then None
    else nth_error l (Z.to_nat (Z.of_nat (List.length l) + i))
  else nth_error l (Z.to_nat i).

(** The position in the list that [l[i]] reads. *)
Definition resolved_index {A : Type} (l : list A) (i : Z) : nat :=
  if (i <? 0)%Z then Z.to_nat (Z.of_nat (List.length l) + i) else Z.to_nat i.

Fixpoint insert_int (i : Z) (l : list Z) : list Z :=
  match l with
  | [] => [i]
  | j :: l' =>
      if (i <? j)%Z then i :: l
      else if (i =? j)%Z then l
      else j :: insert_int i l'
  end.

(** [key_indices = list(set(key_points)); key_indices.sort()] on ints. *)
Definition key_indices_int (key_points : list Z) : list Z :=
  fold_right insert_int [] key_points.

Fixpoint annotate_from_int (ax : axes) (prof : list point) (idxs : list Z)
    (used_positions : list anchor) : option (list label_placement) :=
  match idxs with
  | [] => Some []
  | idx :: idxs' =>
      pt <- py_getitem prof idx ;;
      let '(pl, used') :=
        annotate_point ax (resolved_index prof idx) pt used_positions in
      pls <- annotate_from_int ax prof idxs' used' ;;
      Some (pl :: pls)
  end.

Definition annotate_int (ax : axes) (prof : list point) (key_points : list Z)
  : option (list label_placement) :=
  annotate_from_int ax prof (key_indices_int key_points) [].

Definition create_chart_png_int (ax : axes) (prof : list point)
    (key_points : list Z) : option chart :=
  let times := map pt_time prof in
  let temps := map pt_temp prof in
  labels <- annotate_int ax prof key_points ;;
  max_time <- py_max times ;;
  min_temp <- py_min temps ;;
  max_temp <- py_max temps ;;
  let low := if Qlt_bool (min_temp * (115 # 100)) 0
             then min_temp * (115 # 100) else 0 in
  Some {| chart_labels := labels;
          chart_limits := Some ((0, max_time * (115 # 100)),
                                (low, max_temp * (115 # 100))) |}.

Definition create_chart_image_int (ax : axes) (prof : list point)
    (key_points : list Z) : option chart :=
  labels <- annotate_int ax prof key_points ;;
  Some {| chart_labels := labels; chart_limits := None |}.

(** ** Basic facts about the numeric tests *)

Lemma Qlt_bool_iff (x y : Q) : Qlt_bool x y = true <-> x < y.
Proof.
  unfold Qlt_bool. rewrite negb_true_iff.
  split; intro H.
  - apply Qnot_le_lt. intro Hle. apply Qle_bool_iff in Hle. congruence.
  - destruct (Qle_bool y x) eqn:E; [|reflexivity].
    apply Qle_bool_iff in E. exfalso. apply (Qlt_not_le _ _ H E).
Qed.

Lemma Qeq_bool_false_iff (x y : Q) : Qeq_bool x y = false <-> ~ x == y.
Proof.
  split; intro H.
  - intro E. apply Qeq_bool_iff in E. congruence.
  - destruct (Qeq_bool x y) eqn:E; [|reflexivity].
    apply Qeq_bool_iff in E. contradiction.
Qed.

Lemma ramp_skipped_iff (a b : Q) : ramp_skipped a b = true <-> a == b.
Proof.
  unfold ramp_skipped. rewrite Qeq_bool_iff. split; intro H; lra.
Qed.

Lemma ramp_skipped_compat (a a' b b' : Q) :
  a == a' -> b == b' -> ramp_skipped a b = ramp_skipped a' b'.
Proof.
  intros Ha Hb.
  destruct (ramp_skipped a' b') eqn:E.
  - apply ramp_skipped_iff. apply ramp_skipped_iff in E. lra.
  - destruct (ramp_skipped a b) eqn:E'; [|reflexivity].
    apply ramp_skipped_iff in E'.
    assert (ramp_skipped a' b' = true) by (apply ramp_skipped_iff; lra).
    congruence.
Qed.

Lemma ramp_rate_compat (p : params) (a a' b : Q) :
  a == a' -> ramp_rate p a b = ramp_rate p a' b.
Proof.
  intro Ha. unfold ramp_rate.
  destruct (Qlt_bool 0 (b - a')) eqn:E.
  - apply Qlt_bool_iff in E.
    assert (Qlt_bool 0 (b - a) = true) as -> by (apply Qlt_bool_iff; lra).
    reflexivity.
  - destruct (Qlt_bool 0 (b - a)) eqn:E'; [|reflexivity].
    apply Qlt_bool_iff in E'.
    assert (Qlt_bool 0 (b - a') = true) by (apply Qlt_bool_iff; lra).
    congruence.
Qed.

Lemma ramp_rate_cases (p : params) (a b : Q) :
  ramp_rate p a b = heat_rate p \/ ramp_rate p a b = cool_rate p.
Proof. unfold ramp_rate. destruct (Qlt_bool 0 (b - a)); auto. Qed.

(** ** The ramp block, by cases *)

Lemma snoc_length_pred {A : Type} (l : list A) (x : A) :
  (List.length (l ++ [x]) - 1)%nat = List.length l.
Proof. rewrite length_app. simpl. lia. Qed.

Lemma ramp_unfold (p : params) (target : Q) (label : string) (st : state) :
  ramp p target label st =
  if ramp_skipped (current_temp st) target then Some st
  else if Qeq_bool (ramp_rate p (current_temp st) target) 0 then None
       else Some (ramped p target label st).
Proof.
  unfold ramp, ramp_skipped, ramp_rate, py_div, bind.
  destruct (Qeq_bool (target - current_temp st) 0); cbn [negb]; [reflexivity|].
  destruct (Qeq_bool (if Qlt_bool 0 (target - current_temp st)
                      then heat_rate p else cool_rate p) 0); [reflexivity|].
  unfold ramped, ramp_rate, set_temp, append_point, set_time.
  cbn [profile key_points current_time current_temp].
  now rewrite snoc_length_pred.
Qed.

Lemma ramp_spec (p : params) (target : Q) (label : string) (st : state) :
  ramp_outcome p target label st (ramp p target label st).
Proof.
  rewrite ramp_unfold.
  destruct (ramp_skipped (current_temp st) target) eqn:Hs.
  - now constructor.
  - destruct (Qeq_bool (ramp_rate p (current_temp st) target) 0) eqn:Hr.
    + apply ramp_is_error; [assumption | now apply Qeq_bool_iff].
    + apply ramp_is_emitted; [assumption | now apply Qeq_bool_false_iff].
Qed.

Lemma hold_unfold (d : Q) (label : string) (st : state) :
  hold d label st =
  {| profile := profile st ++ [(current_time st + d, current_temp st, label)];
     key_points := key_points st ++ [List.length (profile st)];
     current_time := current_time st + d;
     current_temp := current_temp st |}.
Proof.
  unfold hold, append_point, set_time; simpl.
  now rewrite snoc_length_pred.
Qed.

Lemma ramped_with_point (p : params) (target : Q) (label : string) (st : state) :
  ramped p target label st =
  with_point st (current_time st
                 + Qabs (target - current_temp st)
                   / ramp_rate p (current_temp st) target) target label.
Proof. reflexivity. Qed.

Lemma hold_with_point (d : Q) (label : string) (st : state) :
  hold d label st = with_point st (current_time st + d) (current_temp st) label.
Proof. apply hold_unfold. Qed.

Lemma cycle_body_unfold (p : params) (cycle : Z) (st : state) :
  cycle_body p cycle st =
  (st1 <- ramp p (high_temp p)
            (snd (select_cycle p cycle) ++ "高温达到")%string st ;;
   let st2 := hold (fst (fst (select_cycle p cycle)))
                (snd (select_cycle p cycle) ++ "高温结束")%string st1 in
   if (cycle <? cycles p - 1)%Z then
     st3 <- ramp p (low_temp p)
              (snd (select_cycle p cycle) ++ "低温达到")%string st2 ;;
     Some (hold (snd (fst (select_cycle p cycle)))
             (snd (select_cycle p cycle) ++ "低温结束")%string st3)
   else Some st2).
Proof.
  unfold cycle_body. destruct (select_cycle p cycle) as [[ht lt] ct].
  reflexivity.
Qed.

Lemma select_cycle_durations (p : params) (cycle : Z) :
  In (fst (fst (select_cycle p cycle))) (durations p) /\
  In (snd (fst (select_cycle p cycle))) (durations p).
Proof.
  unfold select_cycle, durations.
  destruct (cycle =? 0)%Z; [|destruct (cycle =? cycles p - 1)%Z];
    cbn [fst snd In]; tauto.
Qed.

Lemma initial_stage_unfold (p : params) :
  initial_stage p = hold (initial_time p) "初始温度结束" (first_point_state p).
Proof. reflexivity. Qed.

(** ** Lifting a state invariant through the three stages *)

Section Invariant.
Variable p : params.
Variable I : state -> Prop.

Hypothesis I_first : I (first_point_state p).
Hypothesis I_ramp : forall target label st st',
    I st -> ramp p target label st = Some st' -> I st'.
Hypothesis I_hold : forall d label st,
    In d (durations p) -> I st -> I (hold d label st).

Lemma cycle_body_invariant (cycle : Z) (st st' : state) :
  I st -> cycle_body p cycle st = Some st' -> I st'.
Proof.
  intros Hst. rewrite cycle_body_unfold.
  destruct (select_cycle_durations p cycle) as [Hh Hl].
  destruct (ramp p (high_temp p) _ st) as [st1|] eqn:E1; cbn [bind];
    [|discriminate].
  apply I_ramp in E1; [|assumption].
  destruct (cycle <? cycles p - 1)%Z.
  - destruct (ramp p (low_temp p) _ _) as [st3|] eqn:E3; cbn [bind];
      [|discriminate].
    intro H; injection H as <-.
    apply I_hold; [assumption|].
    eapply I_ramp; [|exact E3]. now apply I_hold.
  - intro H; injection H as <-. now apply I_hold.
Qed.

Lemma for_cycles_invariant (cs : list Z) :
  forall st st', I st -> for_cycles p cs st = Some st' -> I st'.
Proof.
  induction cs as [|c cs IH]; intros st st' Hst; cbn [for_cycles].
  - intro H; injection H as <-. assumption.
  - destruct (cycle_body p c st) as [st1|] eqn:E; cbn [bind]; [|discriminate].
    apply IH. eapply cycle_body_invariant; eassumption.
Qed.

Lemma run_invariant (st : state) : run p = Some st -> I st.
Proof.
  unfold run, recovery_stage.
  destruct (for_cycles p (range (cycles p)) (initial_stage p)) as [st1|] eqn:E;
    cbn [bind]; [|discriminate].
  apply for_cycles_invariant in E.
  - destruct (ramp p (recovery_temp p) _ st1) as [st2|] eqn:E2; cbn [bind];
      [|discriminate].
    intro H; injection H as <-.
    apply I_hold; [unfold durations; cbn [In]; tauto|].
    eapply I_ramp; eassumption.
  - rewrite initial_stage_unfold.
    apply I_hold; [unfold durations; cbn [In]; tauto | exact I_first].
Qed.
End Invariant.

(** ** Key points *)

Lemma with_point_key_points (st : state) (t T : Q) (label : string) :
  key_points_enumerate st -> key_points_enumerate (with_point st t T label).
Proof.
  unfold key_points_enumerate, with_point.
  cbn [profile key_points]. intros ->.
  rewrite length_app. cbn [List.length].
  rewrite Nat.add_1_r, seq_S. reflexivity.
Qed.

Lemma ramp_key_points (p : params) (target : Q) (label : string)
    (st st' : state) :
  key_points_enumerate st -> ramp p target label st = Some st' ->
  key_points_enumerate st'.
Proof.
  intros Hst H. destruct (ramp_spec p target label st); try discriminate;
    injection H as <-; [assumption|].
  rewrite ramped_with_point. now apply with_point_key_points.
Qed.

Lemma run_key_points (p : params) (st : state) :
  run p = Some st -> key_points_enumerate st.
Proof.
  apply run_invariant.
  - reflexivity.
  - intros target label s s'. apply ramp_key_points.
  - intros d label s _ Hs. rewrite hold_with_point.
    now apply with_point_key_points.
Qed.

(** ** Time order *)

Lemma nondecreasing_snoc (l : list point) (x : point) :
  nondecreasing_times l ->
  Forall (fun a => pt_time a <= pt_time x) l ->
  nondecreasing_times (l ++ [x]).
Proof.
  intros Hl Hx i a b Ha Hb.
  destruct (Nat.lt_ge_cases (S i) (List.length l)) as [Hlt|Hge].
  - rewrite nth_error_app1 in Ha by lia.
    rewrite nth_error_app1 in Hb by lia.
    eapply Hl; eassumption.
  - rewrite nth_error_app2 in Hb by lia.
    destruct (S i - List.length l)%nat as [|[|k]] eqn:Ek; cbn in Hb;
      try discriminate.
    injection Hb as <-.
    rewrite nth_error_app1 in Ha by lia.
    rewrite Forall_forall in Hx. apply Hx.
    eapply nth_error_In; eassumption.
Qed.

Lemma with_point_time_ordered (st : state) (t T : Q) (label : string) :
  current_time st <= t -> time_ordered st ->
  time_ordered (with_point st t T label).
Proof.
  intros Ht [Hmono Hall]. unfold time_ordered, with_point.
  cbn [profile current_time]. split.
  - apply nondecreasing_snoc; [assumption|].
    eapply Forall_impl; [|exact Hall].
    intros a Ha. change (pt_time (t, T, label)) with t. cbn beta in Ha. lra.
  - apply Forall_app. split.
    + eapply Forall_impl; [|exact Hall]. intros a Ha. cbn beta in *. lra.
    + constructor; [|constructor]. change (pt_time (t, T, label)) with t. lra.
Qed.

Lemma ramp_duration_nonneg (p : params) (a b : Q) :
  0 < heat_rate p -> 0 < cool_rate p ->
  0 <= Qabs (b - a) / ramp_rate p a b.
Proof.
  intros Hh Hc.
  assert (Hr : 0 < ramp_rate p a b)
    by (destruct (ramp_rate_cases p a b) as [-> | ->]; assumption).
  apply Qle_shift_div_l; [assumption|].
  rewrite Qmult_0_l. apply Qabs_nonneg.
Qed.

Lemma ramp_time_ordered (p : params) (target : Q) (label : string)
    (st st' : state) :
  0 < heat_rate p -> 0 < cool_rate p ->
  time_ordered st -> ramp p target label st = Some st' -> time_ordered st'.
Proof.
  intros Hh Hc Hst H.
  destruct (ramp_spec p target label st); try discriminate;
    injection H as <-; [assumption|].
  rewrite ramped_with_point. apply with_point_time_ordered; [|assumption].
  pose proof (ramp_duration_nonneg p (current_temp st) target Hh Hc). lra.
Qed.

Lemma durations_nonneg (p : params) (d : Q) :
  nonnegative_durations p -> In d (durations p) -> 0 <= d.
Proof.
  unfold nonnegative_durations, durations. cbn [In].
  intros (H1 & H2 & H3 & H4 & H5 & H6 & H7 & H8) Hd.
  repeat (destruct Hd as [<- | Hd]; [assumption|]). contradiction.
Qed.

Lemma first_point_time_ordered (p : params) : time_ordered (first_point_state p).
Proof.
  split.
  - intros i a b Ha Hb. destruct i; discriminate.
  - constructor; [|constructor]. unfold pt_time. cbn. lra.
Qed.

Lemma run_time_ordered (p : params) (st : state) :
  nonnegative_durations p -> 0 < heat_rate p -> 0 < cool_rate p ->
  run p = Some st -> time_ordered st.
Proof.
  intros Hd Hh Hc. apply run_invariant.
  - apply first_point_time_ordered.
  - intros target label s s'. now apply ramp_time_ordered.
  - intros d label s Hin Hs. rewrite hold_with_point.
    apply with_point_time_ordered; [|assumption].
    pose proof (durations_nonneg p d Hd Hin). lra.
Qed.

(** ** Totality when no rate is zero *)

Lemma ramp_total (p : params) (target : Q) (label : string) (st : state) :
  ~ heat_rate p == 0 -> ~ cool_rate p == 0 ->
  exists st', ramp p target label st = Some st'.
Proof.
  intros Hh Hc. destruct (ramp_spec p target label st) as [ | |Hs Hr];
    [eexists; reflexivity .. |].
  exfalso.
  destruct (ramp_rate_cases p (current_temp st) target) as [E|E];
    rewrite E in Hr; contradiction.
Qed.

Lemma cycle_body_total (p : params) (cycle : Z) (st : state) :
  ~ heat_rate p == 0 -> ~ cool_rate p == 0 ->
  exists st', cycle_body p cycle st = Some st'.
Proof.
  intros Hh Hc. rewrite cycle_body_unfold.
  destruct (ramp_total p (high_temp p)
              (snd (select_cycle p cycle) ++ "高温达到")%string st Hh Hc)
    as [st1 ->].
  cbn [bind]. destruct (cycle <? cycles p - 1)%Z; [|eexists; reflexivity].
  match goal with
  | |- context [ramp p (low_temp p) ?l ?s] =>
      destruct (ramp_total p (low_temp p) l s Hh Hc) as [st3 ->]
  end.
  cbn [bind]. eexists; reflexivity.
Qed.

Lemma for_cycles_total (p : params) (cs : list Z) :
  ~ heat_rate p == 0 -> ~ cool_rate p == 0 ->
  forall st, exists st', for_cycles p cs st = Some st'.
Proof.
  intros Hh Hc. induction cs as [|c cs IH]; intro st; cbn [for_cycles].
  - eexists; reflexivity.
  - destruct (cycle_body_total p c st Hh Hc) as [st1 ->]. cbn [bind]. apply IH.
Qed.

Lemma run_total (p : params) :
  ~ heat_rate p == 0 -> ~ cool_rate p == 0 -> exists st, run p = Some st.
Proof.
  intros Hh Hc. unfold run, recovery_stage.
  destruct (for_cycles_total p (range (cycles p)) Hh Hc (initial_stage p))
    as [st1 ->].
  cbn [bind].
  destruct (ramp_total p (recovery_temp p) "回温温度达到" st1 Hh Hc) as [st2 ->].
  cbn [bind]. eexists; reflexivity.
Qed.

(** ** Counting points *)

Lemma with_point_count (st : state) (t T : Q) (label : string) :
  point_count (with_point st t T label) = (point_count st + 1)%Z.
Proof.
  unfold point_count, with_point. cbn [profile].
  rewrite length_app. cbn [List.length]. lia.
Qed.

Lemma ramp_count (p : params) (target : Q) (label : string) (st : state) :
  ~ heat_rate p == 0 -> ~ cool_rate p == 0 ->
  exists st',
    ramp p target label st = Some st' /\
    point_count st' =
      (point_count st + 1 - b2z (ramp_skipped (current_temp st) target))%Z /\
    current_temp st' == target.
Proof.
  intros Hh Hc.
  destruct (ramp_spec p target label st) as [Hs|Hs Hr|Hs Hr].
  - exists st. rewrite Hs. cbn [b2z]. repeat split; [lia|].
    now apply ramp_skipped_iff.
  - eexists; split; [reflexivity|]. rewrite Hs. cbn [b2z].
    rewrite ramped_with_point, with_point_count. split; [lia|reflexivity].
  - exfalso.
    destruct (ramp_rate_cases p (current_temp st) target) as [E|E];
      rewrite E in Hr; contradiction.
Qed.

Lemma hold_count (d : Q) (label : string) (st : state) :
  point_count (hold d label st) = (point_count st + 1)%Z /\
  current_temp (hold d label st) = current_temp st.
Proof.
  rewrite hold_with_point, with_point_count. split; reflexivity.
Qed.

Lemma cycle_body_count (p : params) (cycle : Z) (st : state) (T0 : Q) :
  ~ heat_rate p == 0 -> ~ cool_rate p == 0 ->
  current_temp st == T0 ->
  exists st',
    cycle_body p cycle st = Some st' /\
    if (cycle <? cycles p - 1)%Z then
      point_count st' =
        (point_count st + 4 - b2z (ramp_skipped T0 (high_temp p))
         - b2z (ramp_skipped (high_temp p) (low_temp p)))%Z /\
      current_temp st' == low_temp p
    else
      point_count st' =
        (point_count st + 2 - b2z (ramp_skipped T0 (high_temp p)))%Z /\
      current_temp st' == high_temp p.
Proof.
  intros Hh Hc HT. rewrite cycle_body_unfold.
  destruct (ramp_count p (high_temp p)
              (snd (select_cycle p cycle) ++ "高温达到")%string st Hh Hc)
    as (st1 & -> & Hn1 & HT1).
  cbn [bind].
  rewrite (ramp_skipped_compat _ T0 _ (high_temp p) HT (Qeq_refl _)) in Hn1.
  set (st2 := hold (fst (fst (select_cycle p cycle)))
                (snd (select_cycle p cycle) ++ "高温结束")%string st1).
  destruct (hold_count (fst (fst (select_cycle p cycle)))
              (snd (select_cycle p cycle) ++ "高温结束")%string st1)
    as [Hn2 HT2].
  fold st2 in Hn2, HT2. cbv zeta.
  destruct (cycle <? cycles p - 1)%Z.
  - destruct (ramp_count p (low_temp p)
                (snd (select_cycle p cycle) ++ "低温达到")%string st2 Hh Hc)
      as (st3 & -> & Hn3 & HT3).
    cbn [bind]. eexists; split; [reflexivity|].
    match goal with
    | |- context [hold ?d ?l st3] =>
        destruct (hold_count d l st3) as [Hn4 HT4]; rewrite Hn4, HT4
    end.
    assert (HT2' : current_temp st2 == high_temp p) by (rewrite HT2; exact HT1).
    rewrite (ramp_skipped_compat _ (high_temp p) _ (low_temp p)
               HT2' (Qeq_refl _)) in Hn3.
    split; [lia | exact HT3].
  - eexists; split; [reflexivity|]. rewrite HT2. split; [lia | exact HT1].
Qed.

Lemma for_cycles_count (p : params) :
  ~ heat_rate p == 0 -> ~ cool_rate p == 0 ->
  forall (m k : nat) (st : state) (T0 : Q),
    (Z.of_nat k + Z.of_nat m = cycles p)%Z -> (1 <= m)%nat ->
    current_temp st == T0 ->
    exists st',
      for_cycles p (map Z.of_nat (seq k m)) st = Some st' /\
      point_count st' =
        (point_count st + Z.of_nat m * 2 + (Z.of_nat m - 1) * 2
         - b2z (ramp_skipped T0 (high_temp p))
         - (Z.of_nat m - 1) * b2z (ramp_skipped (high_temp p) (low_temp p))
         - (Z.of_nat m - 1) * b2z (ramp_skipped (low_temp p) (high_temp p)))%Z /\
      current_temp st' == high_temp p.
Proof.
  intros Hh Hc. induction m as [|m IH]; intros k st T0 Hk Hm HT; [lia|].
  cbn [seq map for_cycles].
  destruct (cycle_body_count p (Z.of_nat k) st T0 Hh Hc HT) as (st1 & -> & H1).
  cbn [bind].
  destruct (Z.of_nat k <? cycles p - 1)%Z eqn:Elast.
  - apply Z.ltb_lt in Elast. destruct H1 as [Hn1 HT1].
    destruct (IH (S k) st1 (low_temp p)) as (st' & -> & Hn & HT');
      [lia | lia | exact HT1 |].
    eexists; split; [reflexivity|]. split; [|exact HT'].
    rewrite Hn, Hn1.
    destruct (ramp_skipped T0 (high_temp p)),
             (ramp_skipped (high_temp p) (low_temp p)),
             (ramp_skipped (low_temp p) (high_temp p)); cbn [b2z]; lia.
  - apply Z.ltb_ge in Elast. destruct H1 as [Hn1 HT1].
    assert (m = 0%nat) as -> by lia.
    cbn [seq map for_cycles]. eexists; split; [reflexivity|].
    split; [|exact HT1]. rewrite Hn1.
    destruct (ramp_skipped T0 (high_temp p)); cbn [b2z]; lia.
Qed.

Lemma initial_stage_count (p : params) :
  point_count (initial_stage p) = 2%Z /\
  current_temp (initial_stage p) = initial_temp p.
Proof. split; reflexivity. Qed.

Lemma run_count (p : params) :
  (1 <= cycles p)%Z -> ~ heat_rate p == 0 -> ~ cool_rate p == 0 ->
  exists st,
    run p = Some st /\
    point_count st =
      (2 + cycles p * 2 + (cycles p - 1) * 2 + 2 - skipped_ramps p)%Z.
Proof.
  intros Hn Hh Hc. unfold run, range, recovery_stage.
  destruct (initial_stage_count p) as [H0 HT0].
  destruct (for_cycles_count p Hh Hc (Z.to_nat (cycles p)) 0 (initial_stage p)
              (initial_temp p))
    as (st1 & -> & Hn1 & HT1); [lia | lia | now rewrite HT0 |].
  cbn [bind].
  destruct (ramp_count p (recovery_temp p) "回温温度达到" st1 Hh Hc)
    as (st2 & -> & Hn2 & HT2).
  cbn [bind]. eexists; split; [reflexivity|].
  destruct (hold_count (recovery_time p) "回温结束" st2) as [Hn3 _].
  rewrite Hn3, Hn2, Hn1, H0.
  rewrite (ramp_skipped_compat (current_temp st1) (high_temp p)
             (recovery_temp p) (recovery_temp p) HT1 (Qeq_refl _)).
  unfold skipped_ramps. rewrite Z2Nat.id by lia.
  destruct (ramp_skipped (initial_temp p) (high_temp p)),
           (ramp_skipped (high_temp p) (low_temp p)),
           (ramp_skipped (low_temp p) (high_temp p)),
           (ramp_skipped (high_temp p) (recovery_temp p)); cbn [b2z]; lia.
Qed.

(** ** Which runs end in the error result *)


Lemma ramp_failure (p : params) (target : Q) (label : string) (st : state) :
  match ramp p target label st with
  | None => ramp_fails p (current_temp st) target = true
  | Some st' =>
      ramp_fails p (current_temp st) target = false /\
      current_temp st' == target
  end.
Proof.
  unfold ramp_fails.
  destruct (ramp_spec p target label st) as [Hs|Hs Hr|Hs Hr]; rewrite Hs;
    cbn [negb andb].
  - split; [reflexivity | now apply ramp_skipped_iff].
  - split; [now apply Qeq_bool_false_iff | reflexivity].
  - now apply Qeq_bool_iff.
Qed.




(** ** The single-cycle run *)

Lemma single_cycle_run (p : params) :
  cycles p = 1%Z ->
  run p =
  (st1 <- ramp p (high_temp p) "首循环高温达到" (initial_stage p) ;;
   recovery_stage p (hold (first_high_time p) "首循环高温结束" st1)).
Proof.
  intro Hn. unfold run, range. rewrite Hn.
  change (map Z.of_nat (seq 0 (Z.to_nat 1))) with [0%Z].
  cbn [for_cycles].
  rewrite cycle_body_unfold. unfold select_cycle. rewrite Hn.
  change (0 =? 0)%Z with true. change (0 <? 1 - 1)%Z with false.
  cbn [fst snd].
  change ("首循环" ++ "高温达到")%string with "首循环高温达到"%string.
  change ("首循环" ++ "高温结束")%string with "首循环高温结束"%string.
  destruct (ramp p (high_temp p) "首循环高温达到" (initial_stage p));
    reflexivity.
Qed.

Lemma ramp_appends (p : params) (target : Q) (label : string)
    (st st' : state) :
  ramp p target label st = Some st' ->
  exists l, profile st' = profile st ++ l /\
            Forall (fun pt => pt_desc pt = label) l.
Proof.
  intro H. destruct (ramp_spec p target label st); try discriminate;
    injection H as <-.
  - exists []. split; [now rewrite app_nil_r | constructor].
  - eexists [_]. split; [reflexivity|]. repeat constructor.
Qed.

Lemma run_ends_with_hold (p : params) (st : state) :
  run p = Some st ->
  exists st2,
    st = hold (recovery_time p) "回温结束" st2 /\
    current_temp st2 == recovery_temp p.
Proof.
  unfold run, recovery_stage.
  destruct (for_cycles p (range (cycles p)) (initial_stage p)) as [st1|];
    cbn [bind]; [|discriminate].
  pose proof (ramp_failure p (recovery_temp p) "回温温度达到" st1) as Hr.
  destruct (ramp p (recovery_temp p) _ st1) as [st2|]; cbn [bind];
    [|discriminate].
  intro H; injection H as <-. exists st2. split; [reflexivity | apply Hr].
Qed.

Lemma run_profile_nonempty (p : params) (st : state) :
  run p = Some st -> profile st <> [].
Proof.
  intro H. destruct (run_ends_with_hold p st H) as (st2 & -> & _).
  rewrite hold_with_point. cbn [with_point profile].
  intro E. apply app_eq_nil in E. destruct E as [_ E]. discriminate.
Qed.

(** * The claims about the simulator *)




(** C2, as stated, fails on inputs the simulator takes.  With a
    heating rate of 0 the first ramp, from 70 to 100 degrees, emits no
    point at all: the division raises and the run ends in the error
    result.  With a heating rate of -180 degrees per hour the same ramp
    emits its point 1/6 h before the point it started from: the
    duration is negative. *)
Lemma ramp_phase_counterexample :
  ~ current_temp (initial_stage (scenario_with 70 0 1)) == 100 /\
  ramp (scenario_with 70 0 1) 100 "首循环高温达到"
    (initial_stage (scenario_with 70 0 1)) = None /\
  calculate_temperature_profile (scenario_with 70 0 1) = None /\
  exists st',
    ramp (scenario_with 70 (- (180)) 1) 100 "首循环高温达到"
      (initial_stage (scenario_with 70 (- (180)) 1)) = Some st' /\
    current_time st' - current_time (initial_stage (scenario_with 70 (- (180)) 1))
      == - (1 # 6) /\
    current_time st' < current_time (initial_stage (scenario_with 70 (- (180)) 1)).
Proof.
  split; [vm_compute; discriminate|].
  split; [reflexivity|]. split; [reflexivity|].
  eexists. split; [reflexivity|]. split; reflexivity.
Qed.

(** C2, amended: a ramp towards [target] whose current temperature
    differs from the target and whose rate (the heating rate when the
    target is above the current temperature, the cooling rate when it
    is below) is not zero appends exactly one point, at the target
    temperature, marks it as a key point and advances the time by
    [|target - current| / rate].  That duration is not negative when
    the rates are positive, and it is negative when the rate used is
    negative.  When the rate used is zero the division raises and the
    ramp emits nothing.  When the current temperature equals the target
    the ramp leaves the state untouched: no point, no time.  The three
    ramp phases (to the high, the low and the recovery temperature)
    are this block at three targets. *)
Theorem ramp_phase_emits_one_point (p : params) (target : Q) (label : string)
    (st : state) :
  (current_temp st < target -> ~ heat_rate p == 0 ->
   ramp p target label st =
   Some (with_point st
           (current_time st + Qabs (target - current_temp st) / heat_rate p)
           target label)) /\
  (target < current_temp st -> ~ cool_rate p == 0 ->
   ramp p target label st =
   Some (with_point st
           (current_time st + Qabs (target - current_temp st) / cool_rate p)
           target label)) /\
  (current_temp st == target -> ramp p target label st = Some st) /\
  (current_temp st < target -> heat_rate p == 0 ->
   ramp p target label st = None) /\
  (target < current_temp st -> cool_rate p == 0 ->
   ramp p target label st = None) /\
  (0 < heat_rate p -> 0 < cool_rate p ->
   forall st', ramp p target label st = Some st' ->
               current_time st <= current_time st') /\
  (current_temp st < target -> heat_rate p < 0 ->
   forall st', ramp p target label st = Some st' ->
               current_time st' < current_time st) /\
  (target < current_temp st -> cool_rate p < 0 ->
   forall st', ramp p target label st = Some st' ->
               current_time st' < current_time st) /\
  (forall cycle,
     cycle_body p cycle st =
     (st1 <- ramp p (high_temp p)
               (snd (select_cycle p cycle) ++ "高温达到")%string st ;;
      let st2 := hold (fst (fst (select_cycle p cycle)))
                   (snd (select_cycle p cycle) ++ "高温结束")%string st1 in
      if (cycle <? cycles p - 1)%Z then
        st3 <- ramp p (low_temp p)
                 (snd (select_cycle p cycle) ++ "低温达到")%string st2 ;;
        Some (hold (snd (fst (select_cycle p cycle)))
                (snd (select_cycle p cycle) ++ "低温结束")%string st3)
      else Some st2)) /\
  recovery_stage p st =
  (st1 <- ramp p (recovery_temp p) "回温温度达到" st ;;
   Some (hold (recovery_time p) "回温结束" st1)).
Proof.
  assert (Hup : current_temp st < target ->
                ramp_skipped (current_temp st) target = false /\
                ramp_rate p (current_temp st) target = heat_rate p).
  { intro Hlt. split.
    - destruct (ramp_skipped (current_temp st) target) eqn:E; [|reflexivity].
      apply ramp_skipped_iff in E. lra.
    - unfold ramp_rate.
      assert (Qlt_bool 0 (target - current_temp st) = true) as ->
          by (apply Qlt_bool_iff; lra).
      reflexivity. }
  assert (Hdown : target < current_temp st ->
                  ramp_skipped (current_temp st) target = false /\
                  ramp_rate p (current_temp st) target = cool_rate p).
  { intro Hlt. split.
    - destruct (ramp_skipped (current_temp st) target) eqn:E; [|reflexivity].
      apply ramp_skipped_iff in E. lra.
    - unfold ramp_rate.
      destruct (Qlt_bool 0 (target - current_temp st)) eqn:E; [|reflexivity].
      apply Qlt_bool_iff in E. lra. }
  assert (Hneg : forall r, ~ current_temp st == target -> r < 0 ->
                           Qabs (target - current_temp st) / r < 0).
  { intros r Hne Hr.
    assert (Hpos : 0 < Qabs (target - current_temp st)).
    { destruct (Q_dec (current_temp st) target) as [[Hlt|Hgt]|Heq];
        [| |contradiction]; apply Qabs_case; intro; lra. }
    assert (Hq : 0 < Qabs (target - current_temp st) / (- r)).
    { apply Qlt_shift_div_l; lra. }
    assert (Heq : Qabs (target - current_temp st) / r
                  == - (Qabs (target - current_temp st) / (- r))).
    { field. lra. }
    lra. }
  split; [|split; [|split; [|split; [|split; [|split; [|split; [|split;
    [|split]]]]]]]].
  - intros Hlt Hr. destruct (Hup Hlt) as [Hs Hrate].
    rewrite ramp_unfold, Hs, ramped_with_point, Hrate.
    apply Qeq_bool_false_iff in Hr. now rewrite Hr.
  - intros Hlt Hr. destruct (Hdown Hlt) as [Hs Hrate].
    rewrite ramp_unfold, Hs, ramped_with_point, Hrate.
    apply Qeq_bool_false_iff in Hr. now rewrite Hr.
  - intro Heq. rewrite ramp_unfold.
    apply ramp_skipped_iff in Heq. now rewrite Heq.
  - intros Hlt Hr. destruct (Hup Hlt) as [Hs Hrate].
    rewrite ramp_unfold, Hs, Hrate.
    apply Qeq_bool_iff in Hr. now rewrite Hr.
  - intros Hlt Hr. destruct (Hdown Hlt) as [Hs Hrate].
    rewrite ramp_unfold, Hs, Hrate.
    apply Qeq_bool_iff in Hr. now rewrite Hr.
  - intros Hh Hc st' H.
    destruct (ramp_spec p target label st); try discriminate;
      injection H as <-; [lra|].
    cbn [ramped current_time].
    pose proof (ramp_duration_nonneg p (current_temp st) target Hh Hc). lra.
  - intros Hlt Hr st' H. destruct (Hup Hlt) as [Hs Hrate].
    rewrite ramp_unfold, Hs, ramped_with_point, Hrate in H.
    destruct (Qeq_bool (heat_rate p) 0); [discriminate|].
    assert (Hd := Hneg (heat_rate p) ltac:(intro; lra) Hr).
    assert (Hst : with_point st
                    (current_time st
                     + Qabs (target - current_temp st) / heat_rate p)
                    target label = st') by congruence.
    rewrite <- Hst. cbn [with_point current_time]. lra.
  - intros Hlt Hr st' H. destruct (Hdown Hlt) as [Hs Hrate].
    rewrite ramp_unfold, Hs, ramped_with_point, Hrate in H.
    destruct (Qeq_bool (cool_rate p) 0); [discriminate|].
    assert (Hd := Hneg (cool_rate p) ltac:(intro; lra) Hr).
    assert (Hst : with_point st
                    (current_time st
                     + Qabs (target - current_temp st) / cool_rate p)
                    target label = st') by congruence.
    rewrite <- Hst. cbn [with_point current_time]. lra.
  - intro cycle. apply cycle_body_unfold.
  - reflexivity.
Qed.

Lemma ramp_phase_emits_one_point_witness :
  ramp scenario 100 "首循环高温达到" (initial_stage scenario) =
  Some (with_point (initial_stage scenario)
          ((0 + (1 # 2)) + Qabs (100 - 70) / (3 * 60)) 100 "首循环高温达到") /\
  ramp scenario 40 "回温温度达到" (with_point (initial_stage scenario) 7 100 "") =
  Some (with_point (with_point (initial_stage scenario) 7 100 "")
          (7 + Qabs (40 - 100) / (4 * 60)) 40 "回温温度达到") /\
  ramp scenario 70 "首循环高温达到" (initial_stage scenario) =
  Some (initial_stage scenario) /\
  ramp (scenario_with 70 0 1) 100 "首循环高温达到"
    (initial_stage (scenario_with 70 0 1)) = None.
Proof.
  split; [|split; [|split]].
  - apply (ramp_phase_emits_one_point scenario 100 "首循环高温达到"
             (initial_stage scenario)); [reflexivity | vm_compute; discriminate].
  - apply (ramp_phase_emits_one_point scenario 40 "回温温度达到"
             (with_point (initial_stage scenario) 7 100 ""));
      [reflexivity | vm_compute; discriminate].
  - apply (ramp_phase_emits_one_point scenario 70 "首循环高温达到"
             (initial_stage scenario)). reflexivity.
  - destruct (ramp_phase_emits_one_point (scenario_with 70 0 1) 100
                "首循环高温达到" (initial_stage (scenario_with 70 0 1)))
      as (_ & _ & _ & Hzero & _).
    apply Hzero; reflexivity.
Defined.

(** C3, as stated, fails.  One cycle, initial temperature equal to the
    high temperature: the only skipped ramp is the first ramp to the
    high temperature, in the only cycle.  The profile has 5 points; the
    formula with one pair taken off for that cycle gives 4, and no
    number of pairs gives 5.  With an initial temperature of 70 the
    same run has 6 points, so skipping the ramp takes one point off,
    not two. *)
Lemma point_count_counterexample :
  exists prof kps prof' kps',
    calculate_temperature_profile (scenario_with 100 (3 * 60) 1)
      = Some (prof, kps) /\
    initial_temp (scenario_with 100 (3 * 60) 1)
      = high_temp (scenario_with 100 (3 * 60) 1) /\
    map normal_point prof =
      [(0, 100, "初始温度开始"%string); (1 # 2, 100, "初始温度结束"%string);
       (3 # 4, 100, "首循环高温结束"%string);
       (1, 40, "回温温度达到"%string); (3 # 2, 40, "回温结束"%string)] /\
    Z.of_nat (List.length prof) = 5%Z /\
    claimed_point_count (scenario_with 100 (3 * 60) 1) 1 = 4%Z /\
    (forall k, claimed_point_count (scenario_with 100 (3 * 60) 1) k
               <> Z.of_nat (List.length prof)) /\
    calculate_temperature_profile (scenario_with 70 (3 * 60) 1)
      = Some (prof', kps') /\
    Z.of_nat (List.length prof') = 6%Z.
Proof.
  destruct (calculate_temperature_profile (scenario_with 100 (3 * 60) 1))
    as [[prof kps]|] eqn:E; [|vm_compute in E; discriminate].
  destruct (calculate_temperature_profile (scenario_with 70 (3 * 60) 1))
    as [[prof' kps']|] eqn:E'; [|vm_compute in E'; discriminate].
  exists prof, kps, prof', kps'.
  vm_compute in E. injection E as <- <-.
  vm_compute in E'. injection E' as <- <-.
  repeat split.
  intros k H. unfold claimed_point_count in H.
  cbn [scenario_with cycles List.length] in H.
  change (Z.of_nat 5) with 5%Z in H. lia.
Qed.

(** C3, amended: for every input with [cycles >= 1] and nonzero rates
    (so for every valid input) the simulator succeeds and the number of
    points is [2 + cycles*2 + (cycles-1)*2 + 2] minus ONE point for
    each ramp that is skipped because its source and target
    temperatures coincide.  In particular, when the high temperature
    equals the initial temperature the first ramp to the high
    temperature is skipped entirely, and the first high phase adds one
    point (the end of the hold) to the two points of the initial hold. *)
Theorem point_count_formula (p : params) :
  (1 <= cycles p)%Z -> ~ heat_rate p == 0 -> ~ cool_rate p == 0 ->
  (exists prof kps,
     calculate_temperature_profile p = Some (prof, kps) /\
     Z.of_nat (List.length prof) =
       (2 + cycles p * 2 + (cycles p - 1) * 2 + 2 - skipped_ramps p)%Z) /\
  (high_temp p == initial_temp p ->
   forall label,
     ramp p (high_temp p) label (initial_stage p) = Some (initial_stage p) /\
     point_count (initial_stage p) = 2%Z /\
     point_count (hold (first_high_time p) "首循环高温结束" (initial_stage p))
       = 3%Z).
Proof.
  intros Hn Hh Hc. split.
  - destruct (run_count p Hn Hh Hc) as (st & Hrun & Hlen).
    exists (profile st), (key_points st). split; [|exact Hlen].
    unfold calculate_temperature_profile. now rewrite Hrun.
  - intros Heq label. split; [|split; reflexivity].
    rewrite ramp_unfold.
    change (current_temp (initial_stage p)) with (initial_temp p).
    assert (ramp_skipped (initial_temp p) (high_temp p) = true) as ->
        by (apply ramp_skipped_iff; lra).
    reflexivity.
Qed.

Lemma point_count_formula_witness :
  (exists prof kps,
     calculate_temperature_profile (scenario_with 100 (3 * 60) 3)
       = Some (prof, kps) /\
     Z.of_nat (List.length prof) = (2 + 3 * 2 + (3 - 1) * 2 + 2 - 1)%Z) /\
  (exists prof kps,
     calculate_temperature_profile scenario = Some (prof, kps) /\
     Z.of_nat (List.length prof) = (2 + 3 * 2 + (3 - 1) * 2 + 2 - 0)%Z).
Proof.
  split.
  - apply (point_count_formula (scenario_with 100 (3 * 60) 3));
      [discriminate | vm_compute; discriminate | vm_compute; discriminate].
  - apply (point_count_formula scenario);
      [discriminate | vm_compute; discriminate | vm_compute; discriminate].
Defined.

(** C4: for every input with non-negative hold durations and strictly
    positive heating and cooling rates the simulator succeeds and, in
    the returned profile, each point's time is greater than or equal to
    the time of the point before it. *)
Theorem profile_times_nondecreasing (p : params) :
  nonnegative_durations p -> 0 < heat_rate p -> 0 < cool_rate p ->
  exists prof kps,
    calculate_temperature_profile p = Some (prof, kps) /\
    nondecreasing_times prof.
Proof.
  intros Hd Hh Hc.
  destruct (run_total p) as [st Hst]; [lra | lra |].
  exists (profile st), (key_points st). split.
  - unfold calculate_temperature_profile. now rewrite Hst.
  - now destruct (run_time_ordered p st Hd Hh Hc Hst).
Qed.

Lemma profile_times_nondecreasing_witness :
  exists prof kps,
    calculate_temperature_profile scenario = Some (prof, kps) /\
    nondecreasing_times prof.
Proof.
  apply (profile_times_nondecreasing scenario).
  - unfold nonnegative_durations. repeat split; vm_compute; discriminate.
  - reflexivity.
  - reflexivity.
Defined.

(** C5: the worked scenario.  The profile starts at (0, 70), reaches
    (0.5, 70), is at 100 at 0.5 + 30/180 = 2/3 h (0.6667), holds to
    11/12 h (0.9167), is at -20 at 11/12 + 120/240 = 17/12 h (1.4167),
    holds to 41/12 h (3.4167), goes through the middle cycle and the
    last cycle in the same way, is at 40 at 7.75 h and holds 0.5 h more,
    to 8.25 h.  The second list gives the times rounded to four
    decimals, in ten-thousandths of an hour. *)
Theorem scenario_profile :
  exists prof kps,
    calculate_temperature_profile scenario = Some (prof, kps) /\
    map normal_point prof =
      [(0, 70, "初始温度开始"%string);
       (1 # 2, 70, "初始温度结束"%string);
       (2 # 3, 100, "首循环高温达到"%string);
       (11 # 12, 100, "首循环高温结束"%string);
       (17 # 12, -20, "首循环低温达到"%string);
       (41 # 12, -20, "首循环低温结束"%string);
       (49 # 12, 100, "中间循环1高温达到"%string);
       (61 # 12, 100, "中间循环1高温结束"%string);
       (67 # 12, -20, "中间循环1低温达到"%string);
       (79 # 12, -20, "中间循环1低温结束"%string);
       (29 # 4, 100, "末循环高温达到"%string);
       (15 # 2, 100, "末循环高温结束"%string);
       (31 # 4, 40, "回温温度达到"%string);
       (33 # 4, 40, "回温结束"%string)] /\
    map (fun pt => round4 (pt_time pt)) prof =
      [0; 5000; 6667; 9167; 14167; 34167; 40833; 50833; 55833; 65833;
       72500; 75000; 77500; 82500]%Z /\
    heat_rate scenario == 180 /\ cool_rate scenario == 240.
Proof.
  destruct (calculate_temperature_profile scenario) as [[prof kps]|] eqn:E;
    [|vm_compute in E; discriminate].
  exists prof, kps. split; [reflexivity|].
  vm_compute in E. injection E as <- <-.
  repeat split.
Qed.

(** C6: with [cycles = 1] the loop runs once, for cycle 0; the
    selection takes the first-cycle branch, so the cycle holds for
    [first_high_time] and its labels carry the first-cycle prefix.  The
    result does not depend on the last-cycle (or middle-cycle) hold
    times, no label carries the last-cycle prefix, and the end of the
    high hold is labelled as first cycle. *)
Theorem single_cycle_is_first_cycle (p : params) :
  cycles p = 1%Z ->
  range (cycles p) = [0%Z] /\
  select_cycle p 0 = (first_high_time p, first_low_time p, "首循环"%string) /\
  run p =
    (st1 <- ramp p (high_temp p) "首循环高温达到" (initial_stage p) ;;
     recovery_stage p (hold (first_high_time p) "首循环高温结束" st1)) /\
  (forall lh ll mh ml,
     calculate_temperature_profile (with_later_cycle_times p lh ll mh ml) =
     calculate_temperature_profile p) /\
  (forall prof kps,
     calculate_temperature_profile p = Some (prof, kps) ->
     Forall (fun pt => prefix "末循环" (pt_desc pt) = false) prof /\
     exists t T, In (t, T, "首循环高温结束"%string) prof).
Proof.
  intro Hn. split; [now rewrite Hn|]. split; [reflexivity|].
  split; [now apply single_cycle_run|]. split.
  - intros lh ll mh ml. unfold calculate_temperature_profile.
    rewrite (single_cycle_run p Hn).
    rewrite (single_cycle_run (with_later_cycle_times p lh ll mh ml) Hn).
    reflexivity.
  - intros prof kps. unfold calculate_temperature_profile.
    rewrite (single_cycle_run p Hn). unfold recovery_stage.
    destruct (ramp p (high_temp p) _ (initial_stage p)) as [st1|] eqn:E1;
      cbn [bind]; [|discriminate].
    destruct (ramp p (recovery_temp p) _ _) as [st2|] eqn:E2;
      cbn [bind]; [|discriminate].
    intro H. injection H as <- _.
    apply ramp_appends in E1. destruct E1 as (l1 & Hp1 & Hl1).
    apply ramp_appends in E2. destruct E2 as (l2 & Hp2 & Hl2).
    rewrite Hp2, hold_with_point. cbn [with_point profile]. rewrite Hp1.
    change (profile (initial_stage p)) with
      [(0, initial_temp p, "初始温度开始"%string);
       (0 + initial_time p, initial_temp p, "初始温度结束"%string)].
    split.
    + repeat (apply Forall_app; split);
        try (repeat constructor; fail).
      * eapply Forall_impl; [|exact Hl1]. intros pt ->. reflexivity.
      * eapply Forall_impl; [|exact Hl2]. intros pt ->. reflexivity.
    + eexists _, _. rewrite !in_app_iff. left. left. right. left. reflexivity.
Qed.

Lemma single_cycle_is_first_cycle_witness :
  select_cycle (scenario_with 70 (3 * 60) 1) 0 =
  (1 # 4, 2, "首循环"%string) /\
  calculate_temperature_profile
    (with_later_cycle_times (scenario_with 70 (3 * 60) 1) 9 9 9 9) =
  calculate_temperature_profile (scenario_with 70 (3 * 60) 1).
Proof.
  split.
  - apply (single_cycle_is_first_cycle (scenario_with 70 (3 * 60) 1)).
    reflexivity.
  - apply (single_cycle_is_first_cycle (scenario_with 70 (3 * 60) 1)).
    reflexivity.
Defined.

(** C9: whenever the simulator succeeds, the list of key points is
    exactly 0, 1, ..., len(profile) - 1, in increasing order and
    without repetition: every profile point is a key point. *)
Theorem key_points_are_all_indices (p : params) (prof : list point)
    (kps : list nat) :
  calculate_temperature_profile p = Some (prof, kps) ->
  kps = seq 0 (List.length prof) /\
  NoDup kps /\
  (forall i, (i < List.length prof)%nat -> nth_error kps i = Some i).
Proof.
  unfold calculate_temperature_profile.
  destruct (run p) as [st|] eqn:E; cbn [bind]; [|discriminate].
  intro H. injection H as <- <-.
  pose proof (run_key_points p st E) as Hk. unfold key_points_enumerate in Hk.
  rewrite Hk. split; [reflexivity|]. split; [apply seq_NoDup|].
  intros i Hi. rewrite nth_error_nth' with (d := 0%nat)
    by (now rewrite length_seq).
  now rewrite seq_nth.
Qed.

Lemma key_points_are_all_indices_witness :
  [0; 1; 2; 3]%nat = seq 0 4 /\
  NoDup [0; 1; 2; 3]%nat /\
  (forall i, (i < 4)%nat -> nth_error [0; 1; 2; 3]%nat i = Some i).
Proof.
  apply (key_points_are_all_indices (scenario_with 70 (3 * 60) 0)
           [(0, 70, "初始温度开始"%string);
            (0 + (1 # 2), 70, "初始温度结束"%string);
            (0 + (1 # 2) + Qabs (40 - 70) / (4 * 60), 40, "回温温度达到"%string);
            (0 + (1 # 2) + Qabs (40 - 70) / (4 * 60) + (1 # 2), 40,
             "回温结束"%string)]
           [0; 1; 2; 3]%nat).
  reflexivity.
Defined.



(** * The annotation layout *)

Lemma y_overlap_iff (ax : axes) (y : Q) (used : list anchor) :
  y_overlap ax y used = true <-> exists u, In u used /\ y_near ax y (snd u).
Proof.
  unfold y_overlap, y_near. rewrite existsb_exists.
  split; intros (u & Hin & H); exists u; (split; [assumption|]);
    now apply Qlt_bool_iff.
Qed.

(** The anchors one iteration leaves in [used_positions]. *)
Lemma annotate_point_spec (ax : axes) (idx : nat) (pt : point)
    (used : list anchor) :
  let pl := fst (annotate_point ax idx pt used) in
  let used1 := if lp_overlap pl then used
               else used ++ [(pt_time pt, y_inset ax (2 # 100))] in
  lp_temp pl = pt_temp pt /\
  lp_overlap pl = x_overlap ax (pt_time pt) used /\
  lp_y_overlap pl = y_overlap ax (pt_temp pt) used1 /\
  lp_temp_label pl =
    (if lp_y_overlap pl then x_inset ax (6 # 100) else x_inset ax (2 # 100),
     pt_temp pt) /\
  snd (annotate_point ax idx pt used) =
    (if lp_y_overlap pl then used1
     else used1 ++ [(x_inset ax (2 # 100), pt_temp pt)]).
Proof.
  unfold annotate_point. cbv zeta.
  destruct (x_overlap ax (pt_time pt) used); cbv beta iota;
    match goal with
    | |- context [y_overlap ax (pt_temp pt) ?l] =>
        destruct (y_overlap ax (pt_temp pt) l) eqn:E
    end; cbv beta iota;
    cbn [fst snd lp_temp lp_overlap lp_y_overlap lp_temp_label];
    rewrite ?E; repeat split; reflexivity.
Qed.

Lemma annotate_from_cons (ax : axes) (prof : list point) (idx : nat)
    (idxs : list nat) (used : list anchor) (pls : list label_placement) :
  annotate_from ax prof (idx :: idxs) used = Some pls ->
  exists pt pls',
    nth_error prof idx = Some pt /\
    pls = fst (annotate_point ax idx pt used) :: pls' /\
    annotate_from ax prof idxs (snd (annotate_point ax idx pt used))
      = Some pls'.
Proof.
  cbn [annotate_from].
  destruct (nth_error prof idx) as [pt|]; cbn [bind]; [|discriminate].
  destruct (annotate_point ax idx pt used) as [pl used'] eqn:E.
  destruct (annotate_from ax prof idxs used') as [pls'|] eqn:E'; cbn [bind];
    [|discriminate].
  intro H. injection H as <-. exists pt, pls'. rewrite E. cbn [fst snd].
  split; [reflexivity|]. split; [reflexivity | exact E'].
Qed.

(** The rule of the loop started on any list [used]: the temperature
    label of the k-th processed key point is bumped exactly when its
    temperature is near the y of an anchor already in [used], or near
    the first-tier y of a time label committed up to and including
    this key point, or near the temperature of an earlier key point
    whose temperature label was committed. *)
Lemma annotate_from_rule (ax : axes) (prof : list point) :
  forall (idxs : list nat) (used : list anchor) (pls : list label_placement),
    annotate_from ax prof idxs used = Some pls ->
    forall (k : nat) (pl : label_placement),
      nth_error pls k = Some pl ->
      (lp_y_overlap pl = true <->
       (exists u, In u used /\ y_near ax (lp_temp pl) (snd u)) \/
       ((exists j pj, (j <= k)%nat /\ nth_error pls j = Some pj /\
                      lp_overlap pj = false) /\
        y_near ax (lp_temp pl) (y_inset ax (2 # 100))) \/
       (exists j pj, (j < k)%nat /\ nth_error pls j = Some pj /\
                     lp_y_overlap pj = false /\
                     y_near ax (lp_temp pl) (lp_temp pj))).
Proof.
  induction idxs as [|idx idxs IH]; intros used pls Hrun k pl Hk.
  - injection Hrun as <-. destruct k; discriminate.
  - apply annotate_from_cons in Hrun.
    destruct Hrun as (pt & pls' & Hpt & -> & Hrest).
    destruct (annotate_point_spec ax idx pt used)
      as (Htemp & Hov & Hyov & _ & Hused).
    cbv zeta in *.
    set (pl0 := fst (annotate_point ax idx pt used)) in *.
    set (used' := snd (annotate_point ax idx pt used)) in *.
    destruct k as [|k].
    + injection Hk as <-. rewrite Hyov, y_overlap_iff, Htemp. split.
      * intros (u & Hin & Hnear).
        destruct (lp_overlap pl0) eqn:E0; [left; eauto|].
        apply in_app_iff in Hin. destruct Hin as [Hin|[<-|[]]];
          [left; eauto|].
        right; left. split; [|exact Hnear].
        exists 0%nat, pl0. repeat split; auto.
      * intros [(u & Hin & Hnear) | [[(j & pj & Hj & Hnth & Hpj) Hnear]
                                    | (j & _ & Hj & _)]]; [| |lia].
        -- exists u. split; [|exact Hnear].
           destruct (lp_overlap pl0); [|apply in_app_iff]; auto.
        -- assert (j = 0%nat) as -> by lia. injection Hnth as <-.
           rewrite Hpj. exists (pt_time pt, y_inset ax (2 # 100)).
           split; [|exact Hnear].
           apply in_app_iff. right. now left.
    + cbn [nth_error] in Hk.
      rewrite (IH used' pls' Hrest k pl Hk). rewrite Hused.
      split.
      * intros [(u & Hin & Hnear) | [[(j & pj & Hj & Hnth & Hpj) Hnear]
                                    | (j & pj & Hj & Hnth & Hpj & Hnear)]].
        -- assert (Hcases :
             In u used \/
             (lp_overlap pl0 = false /\ u = (pt_time pt, y_inset ax (2 # 100))) \/
             (lp_y_overlap pl0 = false /\ u = (x_inset ax (2 # 100), pt_temp pt))).
           { destruct (lp_y_overlap pl0), (lp_overlap pl0);
               repeat (apply in_app_iff in Hin; destruct Hin as [Hin|Hin]);
               auto; destruct Hin as [<-|[]]; auto. }
           destruct Hcases as [Hin'|[[E ->]|[E ->]]]; cbn [snd] in Hnear.
           ++ left; eauto.
           ++ right; left. split; [|exact Hnear].
              exists 0%nat, pl0. repeat split; auto. lia.
           ++ right; right. exists 0%nat, pl0.
              rewrite Htemp. repeat split; auto. lia.
        -- right; left. split; [|exact Hnear].
           exists (S j), pj. repeat split; auto. lia.
        -- right; right. exists (S j), pj. repeat split; auto. lia.
      * intros [(u & Hin & Hnear) | [[(j & pj & Hj & Hnth & Hpj) Hnear]
                                    | (j & pj & Hj & Hnth & Hpj & Hnear)]].
        -- left. exists u. split; [|exact Hnear].
           destruct (lp_y_overlap pl0), (lp_overlap pl0);
             rewrite ?in_app_iff; auto.
        -- destruct j as [|j].
           ++ injection Hnth as <-. left.
              exists (pt_time pt, y_inset ax (2 # 100)).
              split; [|exact Hnear]. rewrite Hpj.
              destruct (lp_y_overlap pl0); rewrite ?in_app_iff; cbn [In]; auto.
           ++ right; left. split; [|exact Hnear].
              exists j, pj. repeat split; auto. lia.
        -- destruct j as [|j].
           ++ injection Hnth as <-. left.
              exists (x_inset ax (2 # 100), pt_temp pt).
              rewrite Htemp in Hnear. split; [|exact Hnear]. rewrite Hpj.
              rewrite in_app_iff. cbn [In]. auto.
           ++ right; right. exists j, pj. repeat split; auto. lia.
Qed.

Lemma annotate_from_labels (ax : axes) (prof : list point) :
  forall (idxs : list nat) (used : list anchor) (pls : list label_placement),
    annotate_from ax prof idxs used = Some pls ->
    forall pl, In pl pls ->
      lp_temp_label pl =
        (if lp_y_overlap pl then x_inset ax (6 # 100)
         else x_inset ax (2 # 100), lp_temp pl).
Proof.
  induction idxs as [|idx idxs IH]; intros used pls Hrun pl Hin.
  - injection Hrun as <-. contradiction.
  - apply annotate_from_cons in Hrun.
    destruct Hrun as (pt & pls' & Hpt & -> & Hrest).
    destruct Hin as [<-|Hin]; [|eapply IH; eassumption].
    destruct (annotate_point_spec ax idx pt used) as (Htemp & _ & _ & Hl & _).
    cbv zeta in *. now rewrite Hl, Htemp.
Qed.

Lemma first_time_label_committed (ax : axes) (prof : list point)
    (key_points : list nat) (pls : list label_placement)
    (pl : label_placement) :
  annotate ax prof key_points = Some pls ->
  nth_error pls 0 = Some pl -> lp_overlap pl = false.
Proof.
  unfold annotate. destruct (key_indices key_points) as [|idx idxs].
  - intro H. injection H as <-. discriminate.
  - intros Hrun Hk. apply annotate_from_cons in Hrun.
    destruct Hrun as (pt & pls' & Hpt & -> & Hrest).
    injection Hk as <-.
    now destruct (annotate_point_spec ax idx pt []) as (_ & -> & _).
Qed.

Lemma annotate_point_fields (ax : axes) (idx : nat) (pt : point)
    (used : list anchor) :
  lp_index (fst (annotate_point ax idx pt used)) = idx /\
  lp_time (fst (annotate_point ax idx pt used)) = pt_time pt /\
  lp_temp (fst (annotate_point ax idx pt used)) = pt_temp pt.
Proof.
  unfold annotate_point. cbv zeta.
  destruct (x_overlap ax (pt_time pt) used); cbv beta iota;
    match goal with
    | |- context [y_overlap ax (pt_temp pt) ?l] =>
        destruct (y_overlap ax (pt_temp pt) l)
    end; repeat split; reflexivity.
Qed.

Lemma annotate_from_indices (ax : axes) (prof : list point) :
  forall (idxs : list nat) (used : list anchor) (pls : list label_placement),
    annotate_from ax prof idxs used = Some pls ->
    map lp_index pls = idxs /\
    Forall (fun pl => exists pt, nth_error prof (lp_index pl) = Some pt /\
                                 lp_time pl = pt_time pt /\
                                 lp_temp pl = pt_temp pt) pls.
Proof.
  induction idxs as [|idx idxs IH]; intros used pls Hrun.
  - injection Hrun as <-. split; constructor.
  - apply annotate_from_cons in Hrun.
    destruct Hrun as (pt & pls' & Hpt & -> & Hrest).
    destruct (IH _ _ Hrest) as [Hmap Hall].
    destruct (annotate_point_fields ax idx pt used) as (Hi & Ht & HT).
    split.
    + cbn [map]. now rewrite Hi, Hmap.
    + constructor; [|exact Hall]. exists pt. rewrite Hi. auto.
Qed.

Lemma insert_index_HdRel (i j : nat) (l : list nat) :
  (j < i)%nat -> HdRel lt j l -> HdRel lt j (insert_index i l).
Proof.
  intros Hji Hl. destruct l as [|x l]; cbn [insert_index].
  - now constructor.
  - apply HdRel_inv in Hl.
    destruct (i <? x)%nat; [now constructor|].
    destruct (i =? x)%nat; now constructor.
Qed.

Lemma insert_index_sorted (i : nat) (l : list nat) :
  Sorted lt l -> Sorted lt (insert_index i l).
Proof.
  induction l as [|x l IH]; intro Hs; cbn [insert_index].
  - repeat constructor.
  - destruct (i <? x)%nat eqn:E1.
    + apply Nat.ltb_lt in E1. constructor; [assumption | now constructor].
    + destruct (i =? x)%nat eqn:E2; [assumption|].
      apply Nat.ltb_ge in E1. apply Nat.eqb_neq in E2.
      apply Sorted_inv in Hs. destruct Hs as [Hs Hhd].
      constructor; [now apply IH|].
      apply insert_index_HdRel; [lia | assumption].
Qed.

Lemma key_indices_sorted (key_points : list nat) :
  Sorted lt (key_indices key_points).
Proof.
  unfold key_indices. induction key_points as [|i l IH]; cbn [fold_right].
  - constructor.
  - now apply insert_index_sorted.
Qed.

(** * The claims about the annotation layout *)

(** C7, as stated, fails.  In the worked scenario the fifth key point,
    the first point at -20 degrees, gets its temperature label bumped
    to the 6% tier although no earlier key point has a temperature
    within the threshold of -20: the anchor it collides with is the one
    of a time label, whose y is the first-tier text position -23.36.
    With two separate lists, as the specification words the rule, that
    label stays on the 2% tier. *)
Lemma shared_anchor_list_counterexample :
  exists prof kps pls pls' pl,
    calculate_temperature_profile scenario = Some (prof, kps) /\
    annotate scenario_axes prof kps = Some pls /\
    annotate_two_lists scenario_axes prof kps = Some pls' /\
    map lp_y_overlap pls =
      [false; true; false; true; true; true; true; true; true; true; true;
       true; false; true] /\
    map lp_y_overlap pls' =
      [false; true; false; true; false; true; true; true; true; true; true;
       true; false; true] /\
    nth_error pls 4 = Some pl /\
    lp_temp pl == - (20) /\
    lp_y_overlap pl = true /\
    lp_temp_label pl = (x_inset scenario_axes (6 # 100), lp_temp pl) /\
    y_inset scenario_axes (2 # 100) == - (2336 # 100) /\
    (forall j pj, (j < 4)%nat -> nth_error pls j = Some pj ->
                  ~ y_near scenario_axes (lp_temp pl) (lp_temp pj)).
Proof.
  destruct (calculate_temperature_profile scenario) as [[prof kps]|] eqn:E;
    [|vm_compute in E; discriminate].
  vm_compute in E. injection E as <- <-.
  eexists _, _, _, _, _.
  split; [reflexivity|].
  split; [vm_compute; reflexivity|].
  split; [vm_compute; reflexivity|].
  split; [reflexivity|]. split; [reflexivity|].
  split; [reflexivity|].
  split; [reflexivity|]. split; [reflexivity|]. split; [reflexivity|].
  split; [reflexivity|].
  intros j pj Hj Hnth H.
  destruct j as [|[|[|[|j]]]]; [| | | |lia];
    injection Hnth as <-; vm_compute in H; discriminate.
Qed.

(** C7, amended: the loop keeps ONE list of anchors, shared by the
    time-axis and the temperature-axis labels, and the temperature test
    looks at the y of every anchor in it.  For the key points taken in
    increasing index order, the temperature label is bumped from the 2%
    to the 6% x-inset tier if and only if its temperature lies within
    3% of the y-range of the temperature of an earlier key point whose
    temperature label was committed, or within 3% of the y-range of
    the first-tier y-position of the time labels (an anchor present
    from the first key point on, whose time label is always
    committed). *)
Theorem temperature_label_bump_rule (ax : axes) (prof : list point)
    (kps : list nat) (pls : list label_placement) :
  annotate ax prof kps = Some pls ->
  map lp_index pls = key_indices kps /\
  Sorted lt (map lp_index pls) /\
  forall (k : nat) (pl : label_placement),
    nth_error pls k = Some pl ->
    (exists pt, nth_error prof (lp_index pl) = Some pt /\
                lp_time pl = pt_time pt /\ lp_temp pl = pt_temp pt) /\
    (lp_y_overlap pl = true <->
     y_near ax (lp_temp pl) (y_inset ax (2 # 100)) \/
     exists j pj, (j < k)%nat /\ nth_error pls j = Some pj /\
                  lp_y_overlap pj = false /\
                  y_near ax (lp_temp pl) (lp_temp pj)) /\
    lp_temp_label pl =
      (if lp_y_overlap pl then x_inset ax (6 # 100) else x_inset ax (2 # 100),
       lp_temp pl).
Proof.
  intro Hrun.
  destruct (annotate_from_indices ax prof _ _ _ Hrun) as [Hmap Hall].
  split; [exact Hmap|]. split; [rewrite Hmap; apply key_indices_sorted|].
  intros k pl Hk. split; [|split].
  - rewrite Forall_forall in Hall. apply Hall.
    eapply nth_error_In; eassumption.
  - rewrite (annotate_from_rule ax prof _ _ _ Hrun k pl Hk). split.
    + intros [(u & [] & _) | [[_ Hnear] | H]]; auto.
    + intros [Hnear | H]; [|auto]. right; left. split; [|exact Hnear].
      destruct pls as [|pl0 pls0]; [destruct k; discriminate|].
      exists 0%nat, pl0. split; [lia|]. split; [reflexivity|].
      eapply first_time_label_committed; [exact Hrun | reflexivity].
  - eapply annotate_from_labels; [exact Hrun|].
    eapply nth_error_In; eassumption.
Qed.

Lemma temperature_label_bump_rule_witness :
  exists pl,
    annotate low_point_axes low_point_profile [0%nat] = Some [pl] /\
    lp_y_overlap pl = true /\
    (lp_y_overlap pl = true <->
     y_near low_point_axes (lp_temp pl) (y_inset low_point_axes (2 # 100)) \/
     exists j pj, (j < 0)%nat /\ nth_error [pl] j = Some pj /\
                  lp_y_overlap pj = false /\
                  y_near low_point_axes (lp_temp pl) (lp_temp pj)).
Proof.
  eexists. split; [vm_compute; reflexivity|]. split; [reflexivity|].
  destruct (temperature_label_bump_rule low_point_axes low_point_profile
              [0%nat] _ ltac:(vm_compute; reflexivity)) as (_ & _ & Hrule).
  destruct (Hrule 0%nat _ eq_refl) as (_ & Hiff & _). exact Hiff.
Defined.

(** C8, as stated, fails for MAIN01.py's chart function: called with
    an empty profile and no key points it does not produce an empty
    chart, it returns its failure value ([max(times)] raises on the
    empty list once the loop is over). *)
Lemma empty_profile_counterexample :
  create_chart_png low_point_axes [] [] = None.
Proof. reflexivity. Qed.

(** C8, amended: on an empty profile with no key points the
    annotation loop does nothing and yields no label, in both files,
    and web.py's [create_chart_image] succeeds with an empty chart.
    MAIN01.py's [create_chart_png] returns its failure value on that
    input; the programs never make that call, because the simulator
    never returns an empty profile or an empty key point list (and
    [main] returns before the chart step when it sees one). *)
Theorem empty_profile_chart (ax : axes) :
  annotate ax [] [] = Some [] /\
  create_chart_image ax [] [] =
    Some {| chart_labels := []; chart_limits := None |} /\
  create_chart_png ax [] [] = None /\
  (forall p prof kps,
     calculate_temperature_profile p = Some (prof, kps) ->
     prof <> [] /\ kps <> [] /\
     exists ch, create_chart_png ax prof kps = Some ch).
Proof.
  split; [reflexivity|]. split; [reflexivity|]. split; [reflexivity|].
  intros p prof kps. unfold calculate_temperature_profile.
  destruct (run p) as [st|] eqn:E; cbn [bind]; [|discriminate].
  intro H. injection H as <- <-.
  pose proof (run_profile_nonempty p st E) as Hne.
  pose proof (run_key_points p st E) as Hk. unfold key_points_enumerate in Hk.
  split; [exact Hne|]. split.
  - rewrite Hk. destruct (profile st); [contradiction | discriminate].
  - unfold create_chart_png.
    destruct (annotate ax (profile st) (key_points st)) as [pls|] eqn:Hann.
    + cbn [bind]. destruct (profile st) as [|pt l]; [contradiction|].
      cbn [map py_max py_min bind]. eexists; reflexivity.
    + exfalso. unfold annotate in Hann.
      assert (Hin : forall i, In i (key_indices (key_points st)) ->
                              (i < List.length (profile st))%nat).
      { intros i Hi. rewrite Hk in Hi.
        assert (Hsorted : Sorted lt (seq 0 (List.length (profile st)))).
        { clear. generalize 0%nat.
          induction (List.length (profile st)) as [|n IH]; intro k;
            cbn [seq]; constructor; [apply IH|].
          destruct n; cbn [seq]; constructor. lia. }
        assert (Hfix : key_indices (seq 0 (List.length (profile st)))
                       = seq 0 (List.length (profile st))).
        { revert Hsorted. generalize (seq 0 (List.length (profile st))).
          unfold key_indices.
          induction 1 as [|j l Hs IH Hhd]; cbn [fold_right]; [reflexivity|].
          rewrite IH. destruct Hhd as [|j' l' Hjj']; cbn [insert_index];
            [reflexivity|].
          apply Nat.ltb_lt in Hjj'. now rewrite Hjj'. }
        rewrite Hfix in Hi. apply in_seq in Hi. lia. }
      revert Hann Hin. generalize (key_indices (key_points st)).
      generalize (@nil anchor).
      intros used idxs. revert used.
      induction idxs as [|idx idxs IH]; intros used Hann Hin;
        cbn [annotate_from] in Hann; [discriminate|].
      destruct (nth_error (profile st) idx) as [pt|] eqn:Ept.
      * cbn [bind] in Hann.
        destruct (annotate_point ax idx pt used) as [pl used'].
        destruct (annotate_from ax (profile st) idxs used') as [pls|] eqn:Er;
          cbn [bind] in Hann; [discriminate|].
        apply (IH used' Er). intros i Hi. apply Hin. now right.
      * apply nth_error_None in Ept.
        specialize (Hin idx (or_introl eq_refl)). lia.
Qed.

Lemma empty_profile_chart_witness :
  [(0, 70, "初始温度开始"%string);
   (0 + (1 # 2), 70, "初始温度结束"%string);
   (0 + (1 # 2) + Qabs (40 - 70) / (4 * 60), 40, "回温温度达到"%string);
   (0 + (1 # 2) + Qabs (40 - 70) / (4 * 60) + (1 # 2), 40,
    "回温结束"%string)] <> [] /\
  [0; 1; 2; 3]%nat <> [] /\
  exists ch,
    create_chart_png scenario_axes
      [(0, 70, "初始温度开始"%string);
       (0 + (1 # 2), 70, "初始温度结束"%string);
       (0 + (1 # 2) + Qabs (40 - 70) / (4 * 60), 40, "回温温度达到"%string);
       (0 + (1 # 2) + Qabs (40 - 70) / (4 * 60) + (1 # 2), 40,
        "回温结束"%string)]
      [0; 1; 2; 3]%nat = Some ch.
Proof.
  destruct (empty_profile_chart scenario_axes) as (_ & _ & _ & Hsim).
  apply (Hsim (scenario_with 70 (3 * 60) 0)).
  reflexivity.
Defined.

(** * Further properties of the code *)

(** ** File names *)

Lemma re_sub_invalid_valid (filename : py_str) :
  Forall (fun c => is_invalid c = false) (re_sub_invalid filename).
Proof.
  apply Forall_forall. intros c Hc. unfold re_sub_invalid in Hc.
  apply filter_In in Hc. destruct Hc as [_ Hc].
  now apply negb_true_iff in Hc.
Qed.

Lemma re_sub_invalid_clean (filename : py_str) :
  Forall (fun c => is_invalid c = false) filename ->
  re_sub_invalid filename = filename.
Proof.
  unfold re_sub_invalid.
  induction 1 as [|c l Hc Hl IH]; cbn [filter]; [reflexivity|].
  rewrite Hc. cbn [negb]. now rewrite IH.
Qed.

Lemma fallback_name_valid :
  Forall (fun c => is_invalid c = false) (codepoints "temp_profile").
Proof. vm_compute. repeat constructor. Qed.

Lemma validate_filename_clean (filename : py_str) :
  filename <> [] ->
  Forall (fun c => is_invalid c = false) filename ->
  (List.length filename <= 50)%nat ->
  validate_filename filename = filename.
Proof.
  intros Hne Hval Hlen. unfold validate_filename.
  rewrite (re_sub_invalid_clean filename Hval).
  destruct filename as [|c l]; [contradiction|].
  now apply firstn_all2.
Qed.

Lemma validate_filename_web_clean (filename : py_str) :
  filename <> [] ->
  Forall (fun c => is_invalid c = false) filename ->
  validate_filename_web filename = filename.
Proof.
  intros Hne Hval. unfold validate_filename_web.
  rewrite (re_sub_invalid_clean filename Hval).
  destruct filename; [contradiction | reflexivity].
Qed.

Lemma validate_filename_result (filename : py_str) :
  validate_filename filename <> [] /\
  (List.length (validate_filename filename) <= 50)%nat /\
  Forall (fun c => is_invalid c = false) (validate_filename filename).
Proof.
  unfold validate_filename.
  pose proof (re_sub_invalid_valid filename) as Hval.
  destruct (re_sub_invalid filename) as [|c l].
  - split; [discriminate|]. split; [vm_compute; lia | exact fallback_name_valid].
  - split; [discriminate|]. split; [apply firstn_le_length|].
    apply Forall_forall. intros x Hx.
    rewrite Forall_forall in Hval. apply Hval.
    rewrite <- (firstn_skipn 50 (c :: l)). apply in_or_app. now left.
Qed.

Lemma validate_filename_web_result (filename : py_str) :
  validate_filename_web filename <> [] /\
  Forall (fun c => is_invalid c = false) (validate_filename_web filename).
Proof.
  unfold validate_filename_web.
  pose proof (re_sub_invalid_valid filename) as Hval.
  destruct (re_sub_invalid filename) as [|c l].
  - split; [discriminate | exact fallback_name_valid].
  - split; [discriminate | exact Hval].
Qed.

(** X1: whatever the user types, the file name MAIN01.py builds is not
    empty, has at most 50 characters and contains none of the nine
    characters of the pattern; the one of web.py is not empty and
    contains none of them either (it has no length bound). *)
Theorem validate_filename_safe (filename : py_str) :
  (validate_filename filename <> [] /\
   (List.length (validate_filename filename) <= 50)%nat /\
   forall c, In c (validate_filename filename) -> ~ In c invalid_chars) /\
  (validate_filename_web filename <> [] /\
   forall c, In c (validate_filename_web filename) -> ~ In c invalid_chars).
Proof.
  assert (Hinv : forall c, is_invalid c = false -> ~ In c invalid_chars).
  { intros c Hc Hin. unfold is_invalid in Hc.
    assert (existsb (N.eqb c) invalid_chars = true); [|congruence].
    apply existsb_exists. exists c. split; [assumption | apply N.eqb_refl]. }
  destruct (validate_filename_result filename) as (H1 & H2 & H3).
  destruct (validate_filename_web_result filename) as (H4 & H5).
  rewrite Forall_forall in H3, H5.
  repeat split; auto.
Qed.

(** X2: cleaning a cleaned name changes nothing, in both variants. *)
Theorem validate_filename_idempotent (filename : py_str) :
  validate_filename (validate_filename filename) = validate_filename filename /\
  validate_filename_web (validate_filename_web filename)
    = validate_filename_web filename.
Proof.
  destruct (validate_filename_result filename) as (H1 & H2 & H3).
  destruct (validate_filename_web_result filename) as (H4 & H5).
  split.
  - now apply validate_filename_clean.
  - now apply validate_filename_web_clean.
Qed.

(** X3: a name that is not empty, has at most 50 characters and none
    of the nine characters is returned unchanged by MAIN01.py; web.py
    returns such a name unchanged whatever its length. *)
Theorem validate_filename_keeps_clean_names (filename : py_str) :
  filename <> [] ->
  (forall c, In c filename -> ~ In c invalid_chars) ->
  ((List.length filename <= 50)%nat -> validate_filename filename = filename) /\
  validate_filename_web filename = filename.
Proof.
  intros Hne Hval.
  assert (Hall : Forall (fun c => is_invalid c = false) filename).
  { apply Forall_forall. intros c Hc. unfold is_invalid.
    destruct (existsb (N.eqb c) invalid_chars) eqn:E; [|reflexivity].
    apply existsb_exists in E. destruct E as (d & Hd & Hcd).
    apply N.eqb_eq in Hcd. subst d. exfalso. exact (Hval c Hc Hd). }
  split.
  - intro Hlen. now apply validate_filename_clean.
  - now apply validate_filename_web_clean.
Qed.

Lemma validate_filename_keeps_clean_names_witness :
  validate_filename (codepoints "cycle_run_7") = codepoints "cycle_run_7" /\
  validate_filename_web (codepoints "cycle_run_7") = codepoints "cycle_run_7".
Proof.
  assert (Hne : codepoints "cycle_run_7" <> []) by discriminate.
  assert (Hval : forall c, In c (codepoints "cycle_run_7") ->
                           ~ In c invalid_chars).
  { intros c Hc Hin. vm_compute in Hc, Hin.
    repeat (destruct Hc as [<-|Hc];
            [repeat (destruct Hin as [Hin|Hin]; [discriminate Hin|]);
             contradiction|]).
    contradiction. }
  split.
  - apply (validate_filename_keeps_clean_names _ Hne Hval);
      try (vm_compute; lia).
  - apply (validate_filename_keeps_clean_names _ Hne Hval).
Defined.

(** ** Parameter intake *)

Lemma first_negative_none (its : list (string * Q)) :
  first_negative its = None <->
  Forall (fun kv =>
            existsb (String.eqb (fst kv)) temperature_keys = false ->
            0 <= snd kv) its.
Proof.
  unfold first_negative.
  induction its as [|kv its IH]; cbn [find option_map].
  - split; [constructor | reflexivity].
  - destruct (Qlt_bool (snd kv) 0) eqn:Eneg;
      destruct (existsb (String.eqb (fst kv)) temperature_keys) eqn:Ekey;
      cbn [andb negb option_map].
    + rewrite IH. split; intro H.
      * constructor; [intro Hk; congruence | exact H].
      * now inversion H.
    + split; [discriminate|]. intro H. inversion H as [|? ? Hkv _]. subst.
      apply Qlt_bool_iff in Eneg. specialize (Hkv Ekey). lra.
    + rewrite IH. split; intro H.
      * constructor; [intro Hk; congruence | exact H].
      * now inversion H.
    + rewrite IH. split; intro H.
      * constructor; [|exact H]. intros _.
        destruct (Qlt_le_dec (snd kv) 0) as [Hlt|Hle]; [|exact Hle].
        apply Qlt_bool_iff in Hlt. congruence.
      * now inversion H.
Qed.

Lemma inject_Z_nonneg (n : Z) : 0 <= inject_Z n <-> (0 <= n)%Z.
Proof. unfold Qle, inject_Z. cbn. lia. Qed.

Lemma items_nonnegative (p : params) :
  first_negative (items p) = None <->
  nonnegative_durations p /\
  0 <= high_tolerance p /\ 0 <= low_tolerance p /\
  0 <= heat_rate p /\ 0 <= cool_rate p /\ (0 <= cycles p)%Z.
Proof.
  rewrite first_negative_none. unfold items, nonnegative_durations. split.
  - intro H. rewrite Forall_forall in H.
    assert (Hk : forall k v,
               In (k, v) (items p) ->
               existsb (String.eqb k) temperature_keys = false -> 0 <= v).
    { intros k v Hin Hkey. exact (H (k, v) Hin Hkey). }
    unfold items in Hk.
    assert (Hkey : forall k v,
               existsb (String.eqb k) temperature_keys = false ->
               In (k, v) (items p) -> 0 <= v).
    { intros k v Hkey Hin. exact (Hk k v Hin Hkey). }
    unfold items in Hkey.
    repeat split.
    + apply (Hkey "initial_time"%string); [reflexivity|].
      repeat (first [left; reflexivity | right]).
    + apply (Hkey "recovery_time"%string); [reflexivity|].
      repeat (first [left; reflexivity | right]).
    + apply (Hkey "first_high_time"%string); [reflexivity|].
      repeat (first [left; reflexivity | right]).
    + apply (Hkey "first_low_time"%string); [reflexivity|].
      repeat (first [left; reflexivity | right]).
    + apply (Hkey "last_high_time"%string); [reflexivity|].
      repeat (first [left; reflexivity | right]).
    + apply (Hkey "last_low_time"%string); [reflexivity|].
      repeat (first [left; reflexivity | right]).
    + apply (Hkey "middle_high_time"%string); [reflexivity|].
      repeat (first [left; reflexivity | right]).
    + apply (Hkey "middle_low_time"%string); [reflexivity|].
      repeat (first [left; reflexivity | right]).
    + apply (Hkey "high_tolerance"%string); [reflexivity|].
      repeat (first [left; reflexivity | right]).
    + apply (Hkey "low_tolerance"%string); [reflexivity|].
      repeat (first [left; reflexivity | right]).
    + apply (Hkey "heat_rate"%string); [reflexivity|].
      repeat (first [left; reflexivity | right]).
    + apply (Hkey "cool_rate"%string); [reflexivity|].
      repeat (first [left; reflexivity | right]).
    + apply inject_Z_nonneg.
      apply (Hkey "cycles"%string); [reflexivity|].
      repeat (first [left; reflexivity | right]).
  - intros ((H1 & H2 & H3 & H4 & H5 & H6 & H7 & H8) & H9 & H10 & H11 & H12 & H13).
    apply inject_Z_nonneg in H13.
    repeat constructor; cbn [fst snd]; intro Hkey;
      first [assumption | discriminate Hkey].
Qed.

(** X4: [get_user_input] accepts the typed numbers exactly when none
    of the thirteen values that are not temperatures is negative
    (durations, tolerances, rates, cycle count); the four temperatures
    may have any sign.  What it returns then is the typed record with
    both rates multiplied by 60.  Zero rates and zero cycles are
    accepted. *)
Theorem get_user_input_accepts (typed p : params) :
  get_user_input typed = Some p <->
  p = to_per_hour typed /\
  nonnegative_durations typed /\
  0 <= high_tolerance typed /\ 0 <= low_tolerance typed /\
  0 <= heat_rate typed /\ 0 <= cool_rate typed /\ (0 <= cycles typed)%Z.
Proof.
  unfold get_user_input. cbv zeta.
  pose proof (items_nonnegative (to_per_hour typed)) as Hit.
  assert (Hconv :
    (nonnegative_durations (to_per_hour typed) /\
     0 <= high_tolerance (to_per_hour typed) /\
     0 <= low_tolerance (to_per_hour typed) /\
     0 <= heat_rate (to_per_hour typed) /\
     0 <= cool_rate (to_per_hour typed) /\ (0 <= cycles (to_per_hour typed))%Z)
    <->
    (nonnegative_durations typed /\
     0 <= high_tolerance typed /\ 0 <= low_tolerance typed /\
     0 <= heat_rate typed /\ 0 <= cool_rate typed /\ (0 <= cycles typed)%Z)).
  { unfold nonnegative_durations, to_per_hour.
    cbn [initial_time recovery_time first_high_time first_low_time
         last_high_time last_low_time middle_high_time middle_low_time
         high_tolerance low_tolerance heat_rate cool_rate cycles].
    split; intros (Hd & Ht1 & Ht2 & Hh & Hc & Hn);
      (split; [exact Hd|]); (split; [exact Ht1|]); (split; [exact Ht2|]);
      (split; [lra|]); (split; [lra | exact Hn]). }
  rewrite Hconv in Hit.
  destruct (first_negative (items (to_per_hour typed))) as [k|].
  - split; [discriminate|]. intros [_ H].
    apply Hit in H. discriminate.
  - split.
    + intro H. injection H as <-. split; [reflexivity|]. now apply Hit.
    + intros [-> _]. reflexivity.
Qed.

Lemma get_user_input_accepts_witness :
  get_user_input (scenario_with 70 3 0) = Some (to_per_hour (scenario_with 70 3 0)).
Proof.
  apply (get_user_input_accepts (scenario_with 70 3 0)
           (to_per_hour (scenario_with 70 3 0))).
  split; [reflexivity|].
  split; [unfold nonnegative_durations; repeat split; vm_compute; discriminate|].
  repeat split; vm_compute; discriminate.
Defined.

(** X5: for numbers accepted by [get_user_input] with both typed
    rates different from zero, the simulator succeeds on the returned
    record, the profile and the key points are not empty (so [main]
    goes on to the export steps), and the times of the profile never
    go back. *)
Theorem console_input_simulates (typed p : params) :
  get_user_input typed = Some p ->
  ~ heat_rate typed == 0 -> ~ cool_rate typed == 0 ->
  exists prof kps,
    calculate_temperature_profile p = Some (prof, kps) /\
    prof <> [] /\ kps <> [] /\ nondecreasing_times prof.
Proof.
  intros Hin Hh Hc.
  apply get_user_input_accepts in Hin.
  destruct Hin as (-> & Hd & _ & _ & Hh0 & Hc0 & _).
  assert (Hh' : 0 < heat_rate (to_per_hour typed))
    by (cbn [to_per_hour heat_rate]; lra).
  assert (Hc' : 0 < cool_rate (to_per_hour typed))
    by (cbn [to_per_hour cool_rate]; lra).
  destruct (run_total (to_per_hour typed)) as [st Hst]; [lra | lra |].
  exists (profile st), (key_points st).
  unfold calculate_temperature_profile. rewrite Hst. cbn [bind].
  split; [reflexivity|].
  pose proof (run_key_points _ _ Hst) as Hk.
  pose proof (run_time_ordered (to_per_hour typed) st Hd Hh' Hc' Hst) as [Hmono _].
  assert (Hne : profile st <> []).
  { unfold run, recovery_stage in Hst.
    destruct (for_cycles _ _ _) as [s1|]; cbn [bind] in Hst; [|discriminate].
    destruct (ramp _ _ _ s1) as [s2|]; cbn [bind] in Hst; [|discriminate].
    injection Hst as <-. rewrite hold_with_point. cbn [with_point profile].
    intro H. apply app_eq_nil in H. destruct H as [_ H]. discriminate. }
  split; [exact Hne|]. split; [|exact Hmono].
  unfold key_points_enumerate in Hk. rewrite Hk.
  destruct (profile st); [contradiction | discriminate].
Qed.

Lemma console_input_simulates_witness :
  exists prof kps,
    calculate_temperature_profile (to_per_hour (scenario_with 70 3 0))
      = Some (prof, kps) /\
    prof <> [] /\ kps <> [] /\ nondecreasing_times prof.
Proof.
  apply (console_input_simulates (scenario_with 70 3 0)).
  - reflexivity.
  - vm_compute; discriminate.
  - vm_compute; discriminate.
Defined.

(** ** More about the simulator *)

Lemma cycle_body_unused_fields (p : params) (ll ht lt : Q) (cycle : Z)
    (st : state) :
  cycle_body (with_unused_fields p ll ht lt) cycle st = cycle_body p cycle st.
Proof.
  rewrite !cycle_body_unfold. unfold select_cycle.
  change (ramp (with_unused_fields p ll ht lt)) with (ramp p).
  cbn [with_unused_fields first_high_time first_low_time last_high_time
       last_low_time middle_high_time middle_low_time cycles high_temp
       low_temp].
  destruct (cycle =? 0)%Z; [reflexivity|].
  destruct (cycle =? cycles p - 1)%Z eqn:E; [|reflexivity].
  apply Z.eqb_eq in E.
  assert ((cycle <? cycles p - 1)%Z = false) as -> by (apply Z.ltb_ge; lia).
  reflexivity.
Qed.

Lemma for_cycles_unused_fields (p : params) (ll ht lt : Q) (cs : list Z) :
  forall st,
    for_cycles (with_unused_fields p ll ht lt) cs st = for_cycles p cs st.
Proof.
  induction cs as [|c cs IH]; intro st; cbn [for_cycles]; [reflexivity|].
  rewrite cycle_body_unused_fields.
  destruct (cycle_body p c st); cbn [bind]; [apply IH | reflexivity].
Qed.

(** X6: three inputs never influence the simulation: the last-cycle
    low hold time (the low phase is not run in the final cycle, and
    the last-cycle branch is only taken for the final cycle) and the
    two tolerances.  Changing them leaves the profile and the key
    points, or the error result, the same. *)
Theorem unused_inputs (p : params) (ll ht lt : Q) :
  calculate_temperature_profile (with_unused_fields p ll ht lt) =
  calculate_temperature_profile p.
Proof.
  unfold calculate_temperature_profile, run.
  change (cycles (with_unused_fields p ll ht lt)) with (cycles p).
  change (initial_stage (with_unused_fields p ll ht lt))
    with (initial_stage p).
  rewrite for_cycles_unused_fields.
  reflexivity.
Qed.

(** An invariant that needs the ramp targets to be the three targets
    the run uses. *)
Section InvariantAtTargets.
Variable p : params.
Variable I : state -> Prop.

Hypothesis I_ramp : forall target label st st',
    In target [high_temp p; low_temp p; recovery_temp p] ->
    I st -> ramp p target label st = Some st' -> I st'.
Hypothesis I_hold : forall d label st, I st -> I (hold d label st).

Lemma cycle_body_invariant_at (cycle : Z) (st st' : state) :
  I st -> cycle_body p cycle st = Some st' -> I st'.
Proof.
  intros Hst. rewrite cycle_body_unfold.
  destruct (ramp p (high_temp p) _ st) as [st1|] eqn:E1; cbn [bind];
    [|discriminate].
  apply I_ramp in E1; [|cbn [In]; tauto|assumption].
  destruct (cycle <? cycles p - 1)%Z.
  - destruct (ramp p (low_temp p) _ _) as [st3|] eqn:E3; cbn [bind];
      [|discriminate].
    intro H; injection H as <-.
    apply I_hold.
    eapply I_ramp; [|apply I_hold; exact E1|exact E3]. cbn [In]; tauto.
  - intro H; injection H as <-. now apply I_hold.
Qed.

Lemma for_cycles_invariant_at (cs : list Z) :
  forall st st', I st -> for_cycles p cs st = Some st' -> I st'.
Proof.
  induction cs as [|c cs IH]; intros st st' Hst; cbn [for_cycles].
  - intro H; injection H as <-. assumption.
  - destruct (cycle_body p c st) as [st1|] eqn:E; cbn [bind]; [|discriminate].
    apply IH. eapply cycle_body_invariant_at; eassumption.
Qed.

Lemma run_invariant_at (st : state) :
  I (initial_stage p) -> run p = Some st -> I st.
Proof.
  intro H0. unfold run, recovery_stage.
  destruct (for_cycles p (range (cycles p)) (initial_stage p)) as [st1|] eqn:E;
    cbn [bind]; [|discriminate].
  apply for_cycles_invariant_at in E; [|exact H0].
  destruct (ramp p (recovery_temp p) _ st1) as [st2|] eqn:E2; cbn [bind];
    [|discriminate].
  intro H; injection H as <-.
  apply I_hold. eapply I_ramp; [|exact E|exact E2]. cbn [In]; tauto.
Qed.
End InvariantAtTargets.

(** X7: every temperature in the profile is one of the four
    temperatures of the parameter record, taken over unchanged: the
    simulator never computes a temperature. *)
Theorem profile_temperatures (p : params) (prof : list point)
    (kps : list nat) :
  calculate_temperature_profile p = Some (prof, kps) ->
  Forall (fun pt => In (pt_temp pt) (temperatures p)) prof.
Proof.
  unfold calculate_temperature_profile.
  destruct (run p) as [st|] eqn:E; cbn [bind]; [|discriminate].
  intro H. injection H as <- _.
  apply (run_invariant_at p
           (fun s => In (current_temp s) (temperatures p) /\
                     Forall (fun pt => In (pt_temp pt) (temperatures p))
                            (profile s))) in E.
  - apply E.
  - intros target label s s' Ht [Hc Hp] Hr.
    destruct (ramp_spec p target label s); try discriminate;
      injection Hr as <-; [now split|].
    assert (Hin : In target (temperatures p)).
    { unfold temperatures. cbn [In] in *. tauto. }
    cbn [ramped current_temp profile]. split; [exact Hin|].
    apply Forall_app. split; [exact Hp|].
    constructor; [exact Hin | constructor].
  - intros d label s [Hc Hp]. rewrite hold_with_point.
    cbn [with_point current_temp profile]. split; [exact Hc|].
    apply Forall_app. split; [exact Hp|].
    constructor; [exact Hc | constructor].
  - unfold temperatures. split; [now left|].
    constructor; [now left|]. constructor; [now left | constructor].
Qed.

Lemma profile_temperatures_witness :
  Forall (fun pt => In (pt_temp pt) (temperatures (scenario_with 70 (3 * 60) 0)))
    [(0, 70, "初始温度开始"%string);
     (0 + (1 # 2), 70, "初始温度结束"%string);
     (0 + (1 # 2) + Qabs (40 - 70) / (4 * 60), 40, "回温温度达到"%string);
     (0 + (1 # 2) + Qabs (40 - 70) / (4 * 60) + (1 # 2), 40,
      "回温结束"%string)].
Proof.
  apply (profile_temperatures (scenario_with 70 (3 * 60) 0) _ [0; 1; 2; 3]%nat).
  reflexivity.
Defined.

(** X8: every profile starts with the point (0, initial temperature)
    and the point (initial_time, initial temperature) of the initial
    hold, and ends with the recovery hold: its last point is labelled
    as the end of recovery and is at the recovery temperature.  A
    profile therefore has at least three points, and the key point
    list is as long: the test [not profile or not key_points] of
    [main] is true only for the error result. *)
Theorem profile_endpoints (p : params) (prof : list point) (kps : list nat) :
  calculate_temperature_profile p = Some (prof, kps) ->
  (exists rest t T,
     prof = (0, initial_temp p, "初始温度开始"%string)
            :: (0 + initial_time p, initial_temp p, "初始温度结束"%string)
            :: rest ++ [(t, T, "回温结束"%string)] /\
     T == recovery_temp p) /\
  (3 <= List.length prof)%nat /\
  List.length kps = List.length prof.
Proof.
  unfold calculate_temperature_profile.
  destruct (run p) as [st|] eqn:E; cbn [bind]; [|discriminate].
  intro H. injection H as <- <-.
  pose proof (run_key_points p st E) as Hk.
  assert (Hshape : exists rest t T,
     profile st = (0, initial_temp p, "初始温度开始"%string)
            :: (0 + initial_time p, initial_temp p, "初始温度结束"%string)
            :: rest ++ [(t, T, "回温结束"%string)] /\
     T == recovery_temp p).
  { clear Hk. unfold run, recovery_stage in E.
    destruct (for_cycles p (range (cycles p)) (initial_stage p))
      as [st1|] eqn:E1; cbn [bind] in E; [|discriminate].
    pose proof (ramp_failure p (recovery_temp p) "回温温度达到" st1) as Hr.
    destruct (ramp p (recovery_temp p) _ st1) as [st2|] eqn:E2;
      cbn [bind] in E; [|discriminate].
    destruct Hr as [_ HT]. injection E as <-.
    apply ramp_appends in E2. destruct E2 as (l & Hl & _).
    apply (for_cycles_invariant_at p
             (fun s => exists rest,
                profile s =
                (0, initial_temp p, "初始温度开始"%string)
                :: (0 + initial_time p, initial_temp p,
                    "初始温度结束"%string) :: rest)) in E1.
    - destruct E1 as [rest1 Hp1].
      exists (rest1 ++ l), (current_time st2 + recovery_time p),
        (current_temp st2).
      split; [|exact HT].
      rewrite hold_with_point. cbn [with_point profile].
      rewrite Hl, Hp1. reflexivity.
    - intros target label s s' _ [rest Hp] Hr.
      apply ramp_appends in Hr. destruct Hr as (l' & Hl' & _).
      exists (rest ++ l'). now rewrite Hl', Hp.
    - intros d label s [rest Hp]. rewrite hold_with_point.
      cbn [with_point profile]. eexists. rewrite Hp. reflexivity.
    - exists []. reflexivity. }
  split; [exact Hshape|].
  destruct Hshape as (rest & t & T & Hp & _).
  unfold key_points_enumerate in Hk. rewrite Hk, length_seq, Hp.
  cbn [List.length]. rewrite length_app. cbn [List.length]. split; lia.
Qed.

Lemma profile_endpoints_witness :
  (3 <= 4)%nat /\ List.length [0; 1; 2; 3]%nat = 4%nat.
Proof.
  apply (profile_endpoints (scenario_with 70 (3 * 60) 0)
           [(0, 70, "初始温度开始"%string);
            (0 + (1 # 2), 70, "初始温度结束"%string);
            (0 + (1 # 2) + Qabs (40 - 70) / (4 * 60), 40, "回温温度达到"%string);
            (0 + (1 # 2) + Qabs (40 - 70) / (4 * 60) + (1 # 2), 40,
             "回温结束"%string)]
           [0; 1; 2; 3]%nat).
  reflexivity.
Defined.

(** ** The total duration *)

Lemma ramp_time_compat (p : params) (a a' b : Q) :
  a == a' -> ramp_time p a b == ramp_time p a' b.
Proof.
  intro Ha. unfold ramp_time.
  rewrite (ramp_skipped_compat a a' b b Ha (Qeq_refl _)).
  rewrite (ramp_rate_compat p a a' b Ha).
  destruct (ramp_skipped a' b); [reflexivity|].
  now rewrite Ha.
Qed.

Lemma ramp_step_time (p : params) (target : Q) (label : string) (st : state)
    (a : Q) :
  ~ heat_rate p == 0 -> ~ cool_rate p == 0 ->
  current_temp st == a ->
  exists st',
    ramp p target label st = Some st' /\
    current_time st' == current_time st + ramp_time p a target /\
    current_temp st' == target.
Proof.
  intros Hh Hc Ha.
  pose proof (ramp_time_compat p (current_temp st) a target Ha) as Hcompat.
  unfold ramp_time in Hcompat at 1.
  destruct (ramp_spec p target label st) as [Hs|Hs Hr|Hs Hr];
    rewrite Hs in Hcompat.
  - exists st. split; [reflexivity|]. split; [rewrite <- Hcompat; ring|].
    now apply ramp_skipped_iff.
  - eexists; split; [reflexivity|]. cbn [ramped current_time current_temp].
    split; [rewrite <- Hcompat|]; reflexivity.
  - exfalso.
    destruct (ramp_rate_cases p (current_temp st) target) as [E|E];
      rewrite E in Hr; contradiction.
Qed.

Lemma cycle_body_time (p : params) (cycle : Z) (st : state) (T0 : Q) :
  ~ heat_rate p == 0 -> ~ cool_rate p == 0 ->
  current_temp st == T0 ->
  exists st',
    cycle_body p cycle st = Some st' /\
    current_time st' ==
      current_time st + ramp_time p T0 (high_temp p)
      + fst (fst (select_cycle p cycle))
      + (if (cycle <? cycles p - 1)%Z
         then ramp_time p (high_temp p) (low_temp p)
              + snd (fst (select_cycle p cycle))
         else 0) /\
    current_temp st' ==
      (if (cycle <? cycles p - 1)%Z then low_temp p else high_temp p).
Proof.
  intros Hh Hc HT. rewrite cycle_body_unfold.
  destruct (ramp_step_time p (high_temp p)
              (snd (select_cycle p cycle) ++ "高温达到")%string st T0 Hh Hc HT)
    as (st1 & -> & Ht1 & HT1).
  cbn [bind]. cbv zeta.
  set (st2 := hold (fst (fst (select_cycle p cycle)))
                (snd (select_cycle p cycle) ++ "高温结束")%string st1).
  assert (Ht2 : current_time st2
                = current_time st1 + fst (fst (select_cycle p cycle)))
    by (subst st2; now rewrite hold_with_point).
  assert (HT2 : current_temp st2 == high_temp p)
    by (subst st2; rewrite hold_with_point; exact HT1).
  destruct (cycle <? cycles p - 1)%Z.
  - destruct (ramp_step_time p (low_temp p)
                (snd (select_cycle p cycle) ++ "低温达到")%string st2
                (high_temp p) Hh Hc HT2)
      as (st3 & -> & Ht3 & HT3).
    cbn [bind]. eexists; split; [reflexivity|].
    rewrite hold_with_point. cbn [with_point current_time current_temp].
    split; [|exact HT3]. rewrite Ht3, Ht2, Ht1. ring.
  - eexists; split; [reflexivity|]. split; [|exact HT2].
    rewrite Ht2, Ht1. ring.
Qed.

Lemma later_cycles_time (p : params) :
  ~ heat_rate p == 0 -> ~ cool_rate p == 0 ->
  forall (m k : nat) (st : state),
    (Z.of_nat k + Z.of_nat m = cycles p)%Z -> (1 <= k)%nat -> (1 <= m)%nat ->
    current_temp st == low_temp p ->
    exists st',
      for_cycles p (map Z.of_nat (seq k m)) st = Some st' /\
      current_time st' ==
        current_time st
        + inject_Z (Z.of_nat m - 1)
          * (ramp_time p (low_temp p) (high_temp p) + middle_high_time p
             + ramp_time p (high_temp p) (low_temp p) + middle_low_time p)
        + ramp_time p (low_temp p) (high_temp p) + last_high_time p /\
      current_temp st' == high_temp p.
Proof.
  intros Hh Hc. induction m as [|m IH]; intros k st Hk Hk1 Hm HT; [lia|].
  cbn [seq map for_cycles].
  destruct (cycle_body_time p (Z.of_nat k) st (low_temp p) Hh Hc HT)
    as (st1 & -> & Ht1 & HT1).
  cbn [bind]. unfold select_cycle in Ht1.
  assert ((Z.of_nat k =? 0)%Z = false) as E0 by (apply Z.eqb_neq; lia).
  rewrite E0 in Ht1.
  destruct (Z.of_nat k <? cycles p - 1)%Z eqn:Elast.
  - apply Z.ltb_lt in Elast.
    assert ((Z.of_nat k =? cycles p - 1)%Z = false) as E1
        by (apply Z.eqb_neq; lia).
    rewrite E1 in Ht1. cbn [fst snd] in Ht1.
    destruct (IH (S k) st1) as (st' & -> & Ht' & HT'); [lia | lia | lia | exact HT1 |].
    eexists; split; [reflexivity|]. split; [|exact HT'].
    rewrite Ht', Ht1.
    replace (Z.of_nat (S m) - 1)%Z with ((Z.of_nat m - 1) + 1)%Z by lia.
    rewrite inject_Z_plus. change (inject_Z 1) with 1. ring.
  - apply Z.ltb_ge in Elast. assert (m = 0%nat) as -> by lia.
    assert ((Z.of_nat k =? cycles p - 1)%Z = true) as E1
        by (apply Z.eqb_eq; lia).
    rewrite E1 in Ht1. cbn [fst snd] in Ht1.
    cbn [seq map for_cycles]. eexists; split; [reflexivity|].
    split; [|exact HT1]. rewrite Ht1.
    change (inject_Z (Z.of_nat 1 - 1)) with 0. ring.
Qed.

Lemma run_total_time (p : params) :
  (1 <= cycles p)%Z -> ~ heat_rate p == 0 -> ~ cool_rate p == 0 ->
  exists st, run p = Some st /\ current_time st == total_time p.
Proof.
  intros Hn Hh Hc. unfold run, range, recovery_stage, total_time.
  destruct (Z.to_nat (cycles p)) as [|n] eqn:En; [lia|].
  cbn [seq map for_cycles].
  destruct (cycle_body_time p (Z.of_nat 0) (initial_stage p) (initial_temp p)
              Hh Hc (Qeq_refl _))
    as (st1 & -> & Ht1 & HT1).
  cbn [bind]. unfold select_cycle in Ht1.
  change (Z.of_nat 0 =? 0)%Z with true in Ht1. cbn [fst snd] in Ht1.
  change (current_time (initial_stage p)) with (0 + initial_time p) in Ht1.
  destruct (Z.of_nat 0 <? cycles p - 1)%Z eqn:E2.
  - apply Z.ltb_lt in E2.
    assert ((2 <=? cycles p)%Z = true) as -> by (apply Z.leb_le; lia).
    destruct (later_cycles_time p Hh Hc n 1 st1)
      as (st2 & -> & Ht2 & HT2); [lia | lia | lia | exact HT1 |].
    cbn [bind].
    destruct (ramp_step_time p (recovery_temp p) "回温温度达到" st2
                (high_temp p) Hh Hc HT2)
      as (st3 & -> & Ht3 & HT3).
    cbn [bind]. eexists; split; [reflexivity|].
    rewrite hold_with_point. cbn [with_point current_time].
    rewrite Ht3, Ht2, Ht1.
    replace (Z.of_nat n - 1)%Z with (cycles p - 2)%Z by lia. ring.
  - apply Z.ltb_ge in E2.
    assert ((2 <=? cycles p)%Z = false) as -> by (apply Z.leb_gt; lia).
    assert (n = 0%nat) as -> by lia.
    cbn [seq map for_cycles bind].
    destruct (ramp_step_time p (recovery_temp p) "回温温度达到" st1
                (high_temp p) Hh Hc HT1)
      as (st3 & -> & Ht3 & HT3).
    cbn [bind]. eexists; split; [reflexivity|].
    rewrite hold_with_point. cbn [with_point current_time].
    rewrite Ht3, Ht1. ring.
Qed.

Lemma run_times_nonneg (p : params) (st : state) :
  nonnegative_durations p -> 0 < heat_rate p -> 0 < cool_rate p ->
  run p = Some st ->
  0 <= current_time st /\ Forall (fun pt => 0 <= pt_time pt) (profile st).
Proof.
  intros Hd Hh Hc.
  apply (run_invariant p
           (fun s => 0 <= current_time s /\
                     Forall (fun pt => 0 <= pt_time pt) (profile s))).
  - split; [cbn; lra|]. constructor; [cbn; lra | constructor].
  - intros target label s s' [Ht Hp] Hr.
    destruct (ramp_spec p target label s); try discriminate;
      injection Hr as <-; [now split|].
    pose proof (ramp_duration_nonneg p (current_temp s) target Hh Hc) as Hdur.
    cbn [ramped current_time profile]. split; [lra|].
    apply Forall_app. split; [exact Hp|].
    constructor; [|constructor].
    match goal with |- 0 <= pt_time (?t, _, _) => change (0 <= t) end. lra.
  - intros d label s Hin [Ht Hp]. rewrite hold_with_point.
    pose proof (durations_nonneg p d Hd Hin) as Hd0.
    cbn [with_point current_time profile]. split; [lra|].
    apply Forall_app. split; [exact Hp|].
    constructor; [|constructor].
    match goal with |- 0 <= pt_time (?t, _, _) => change (0 <= t) end. lra.
Qed.

(** X9: for a valid input (at least one cycle, non-negative hold
    durations, positive rates) the last point of the profile is at the
    time [total_time]: the initial hold, the ramp to the high
    temperature and the first high hold; with two cycles or more the
    first low phase, [cycles - 2] middle cycles, and the last ramp up
    with the last high hold; then the recovery ramp and hold, where a
    ramp between equal temperatures takes no time.  Every point of the
    profile lies between time 0 and that time. *)
Theorem total_duration (p : params) :
  (1 <= cycles p)%Z -> nonnegative_durations p ->
  0 < heat_rate p -> 0 < cool_rate p ->
  exists prof kps pts pt,
    calculate_temperature_profile p = Some (prof, kps) /\
    prof = pts ++ [pt] /\
    pt_time pt == total_time p /\
    Forall (fun q => 0 <= pt_time q /\ pt_time q <= total_time p) prof.
Proof.
  intros Hn Hd Hh Hc.
  destruct (run_total_time p Hn) as (st & Hrun & Htot); [lra | lra |].
  destruct (run_ends_with_hold p st Hrun) as (st2 & Hst & _).
  destruct (run_times_nonneg p st Hd Hh Hc Hrun) as [_ Hpos].
  destruct (run_time_ordered p st Hd Hh Hc Hrun) as [_ Hle].
  exists (profile st), (key_points st), (profile st2),
    (current_time st, current_temp st, "回温结束"%string).
  split; [unfold calculate_temperature_profile; now rewrite Hrun|].
  split; [rewrite Hst, hold_with_point; reflexivity|].
  split; [exact Htot|].
  rewrite Forall_forall in *. intros q Hq.
  specialize (Hpos q Hq). specialize (Hle q Hq). cbn beta in *.
  split; [exact Hpos | now rewrite <- Htot].
Qed.

Lemma total_duration_witness :
  exists prof kps pts pt,
    calculate_temperature_profile scenario = Some (prof, kps) /\
    prof = pts ++ [pt] /\
    pt_time pt == total_time scenario /\
    Forall (fun q => 0 <= pt_time q /\ pt_time q <= total_time scenario) prof.
Proof.
  apply (total_duration scenario).
  - discriminate.
  - unfold nonnegative_durations. repeat split; vm_compute; discriminate.
  - reflexivity.
  - reflexivity.
Defined.

(** ** More about the annotation loop *)

Lemma key_indices_of_sorted (l : list nat) :
  Sorted lt l -> key_indices l = l.
Proof.
  unfold key_indices.
  induction 1 as [|i l Hs IH Hhd]; cbn [fold_right]; [reflexivity|].
  rewrite IH. destruct Hhd as [|j l' Hij]; cbn [insert_index]; [reflexivity|].
  apply Nat.ltb_lt in Hij. now rewrite Hij.
Qed.

Lemma seq_sorted (start len : nat) : Sorted lt (seq start len).
Proof.
  revert start. induction len as [|len IH]; intro start; cbn [seq].
  - constructor.
  - constructor; [apply IH|].
    destruct len; cbn [seq]; constructor. lia.
Qed.

Lemma annotate_from_none (ax : axes) (prof : list point) :
  forall (idxs : list nat) (used : list anchor),
    annotate_from ax prof idxs used = None <->
    exists i, In i idxs /\ (List.length prof <= i)%nat.
Proof.
  induction idxs as [|idx idxs IH]; intro used; cbn [annotate_from].
  - split; [discriminate | intros (i & [] & _)].
  - destruct (nth_error prof idx) as [pt|] eqn:E; cbn [bind].
    + destruct (annotate_point ax idx pt used) as [pl used'].
      assert (Hidx : (idx < List.length prof)%nat)
        by (apply nth_error_Some; congruence).
      specialize (IH used').
      destruct (annotate_from ax prof idxs used') as [pls|]; cbn [bind].
      * split; [discriminate|]. intros (i & [<- | Hi] & Hlen); [lia|].
        destruct IH as [_ IH]. discriminate IH. now exists i.
      * split; [|reflexivity]. intros _.
        destruct IH as [IH _]. destruct (IH eq_refl) as (i & Hi & Hlen).
        exists i. split; [now right | exact Hlen].
    + apply nth_error_None in E. split; [|reflexivity].
      intros _. exists idx. split; [now left | exact E].
Qed.

(** *** Key points as Python ints *)

Lemma py_getitem_none {A : Type} (l : list A) (i : Z) :
  py_getitem l i = None <->
  (Z.of_nat (List.length l) <= i \/ i < - Z.of_nat (List.length l))%Z.
Proof.
  unfold py_getitem.
  destruct (i <? 0)%Z eqn:E0.
  - apply Z.ltb_lt in E0.
    destruct (i <? - Z.of_nat (List.length l))%Z eqn:E1.
    + apply Z.ltb_lt in E1. split; [intros _; now right | reflexivity].
    + apply Z.ltb_ge in E1. rewrite nth_error_None. split; [lia|].
      intros [H|H]; lia.
  - apply Z.ltb_ge in E0. rewrite nth_error_None. split; [lia|].
    intros [H|H]; lia.
Qed.

Lemma py_getitem_of_nat {A : Type} (l : list A) (i : nat) :
  py_getitem l (Z.of_nat i) = nth_error l i /\
  resolved_index l (Z.of_nat i) = i.
Proof.
  unfold py_getitem, resolved_index.
  assert ((Z.of_nat i <? 0)%Z = false) as -> by (apply Z.ltb_ge; lia).
  now rewrite Nat2Z.id.
Qed.

Lemma insert_int_In (i x : Z) (l : list Z) :
  In x (insert_int i l) <-> x = i \/ In x l.
Proof.
  induction l as [|j l IH]; cbn [insert_int In].
  - intuition.
  - destruct (i <? j)%Z eqn:E1; cbn [In]; [intuition|].
    destruct (i =? j)%Z eqn:E2; cbn [In].
    + apply Z.eqb_eq in E2. subst j. intuition.
    + rewrite IH. intuition.
Qed.

Lemma key_indices_int_In (key_points : list Z) (x : Z) :
  In x (key_indices_int key_points) <-> In x key_points.
Proof.
  unfold key_indices_int.
  induction key_points as [|i l IH]; cbn [fold_right In]; [reflexivity|].
  rewrite insert_int_In, IH. intuition.
Qed.

Lemma insert_int_sorted (i : Z) (l : list Z) :
  Sorted Z.lt l -> Sorted Z.lt (insert_int i l).
Proof.
  induction l as [|x l IH]; intro Hs; cbn [insert_int].
  - repeat constructor.
  - destruct (i <? x)%Z eqn:E1.
    + apply Z.ltb_lt in E1. constructor; [assumption | now constructor].
    + destruct (i =? x)%Z eqn:E2; [assumption|].
      apply Z.ltb_ge in E1. apply Z.eqb_neq in E2.
      apply Sorted_inv in Hs. destruct Hs as [Hs Hhd].
      constructor; [now apply IH|].
      destruct l as [|y l]; cbn [insert_int].
      * constructor. lia.
      * apply HdRel_inv in Hhd.
        destruct (i <? y)%Z; [constructor; lia|].
        destruct (i =? y)%Z; now constructor.
Qed.

Lemma key_indices_int_sorted (key_points : list Z) :
  Sorted Z.lt (key_indices_int key_points).
Proof.
  unfold key_indices_int. induction key_points as [|i l IH]; cbn [fold_right].
  - constructor.
  - now apply insert_int_sorted.
Qed.

Lemma sorted_Zlt_NoDup (l : list Z) : Sorted Z.lt l -> NoDup l.
Proof.
  intro Hs. apply Sorted_StronglySorted in Hs;
    [|intros x y z; apply Z.lt_trans].
  induction Hs as [|x l Hs IH Hx]; constructor; [|exact IH].
  intro Hin. rewrite Forall_forall in Hx. specialize (Hx x Hin). lia.
Qed.

Lemma insert_int_of_nat (i : nat) (l : list nat) :
  insert_int (Z.of_nat i) (map Z.of_nat l) = map Z.of_nat (insert_index i l).
Proof.
  induction l as [|j l IH]; cbn [map insert_int insert_index]; [reflexivity|].
  destruct (i <? j)%nat eqn:E1.
  - apply Nat.ltb_lt in E1.
    assert ((Z.of_nat i <? Z.of_nat j)%Z = true) as ->
        by (apply Z.ltb_lt; lia).
    reflexivity.
  - apply Nat.ltb_ge in E1.
    assert ((Z.of_nat i <? Z.of_nat j)%Z = false) as ->
        by (apply Z.ltb_ge; lia).
    destruct (i =? j)%nat eqn:E2.
    + apply Nat.eqb_eq in E2. subst j. now rewrite Z.eqb_refl.
    + apply Nat.eqb_neq in E2.
      assert ((Z.of_nat i =? Z.of_nat j)%Z = false) as ->
          by (apply Z.eqb_neq; lia).
      cbn [map]. now rewrite IH.
Qed.

Lemma key_indices_int_of_nat (key_points : list nat) :
  key_indices_int (map Z.of_nat key_points)
  = map Z.of_nat (key_indices key_points).
Proof.
  unfold key_indices_int, key_indices.
  induction key_points as [|i l IH]; cbn [map fold_right]; [reflexivity|].
  now rewrite IH, insert_int_of_nat.
Qed.

Lemma annotate_from_int_of_nat (ax : axes) (prof : list point) :
  forall (idxs : list nat) (used : list anchor),
    annotate_from_int ax prof (map Z.of_nat idxs) used
    = annotate_from ax prof idxs used.
Proof.
  induction idxs as [|idx idxs IH]; intro used;
    cbn [map annotate_from_int annotate_from]; [reflexivity|].
  destruct (py_getitem_of_nat prof idx) as [-> ->].
  destruct (nth_error prof idx) as [pt|]; cbn [bind]; [|reflexivity].
  destruct (annotate_point ax idx pt used) as [pl used'].
  now rewrite IH.
Qed.

Lemma annotate_from_int_none (ax : axes) (prof : list point) :
  forall (idxs : list Z) (used : list anchor),
    annotate_from_int ax prof idxs used = None <->
    exists i, In i idxs /\ py_getitem prof i = None.
Proof.
  induction idxs as [|idx idxs IH]; intro used; cbn [annotate_from_int].
  - split; [discriminate | intros (i & [] & _)].
  - destruct (py_getitem prof idx) as [pt|] eqn:E; cbn [bind].
    + destruct (annotate_point ax (resolved_index prof idx) pt used)
        as [pl used'].
      specialize (IH used').
      destruct (annotate_from_int ax prof idxs used') as [pls|]; cbn [bind].
      * split; [discriminate|]. intros (i & [<- | Hi] & Hnone); [congruence|].
        destruct IH as [_ IH]. discriminate IH. now exists i.
      * split; [|reflexivity]. intros _.
        destruct IH as [IH _]. destruct (IH eq_refl) as (i & Hi & Hnone).
        exists i. split; [now right | exact Hnone].
    + split; [|reflexivity]. intros _. exists idx. split; [now left | exact E].
Qed.

Lemma annotate_from_int_points (ax : axes) (prof : list point) :
  forall (idxs : list Z) (used : list anchor) (pls : list label_placement),
    annotate_from_int ax prof idxs used = Some pls ->
    Forall2 (fun i pl => py_getitem prof i = Some (placement_point pl) /\
                         lp_index pl = resolved_index prof i) idxs pls.
Proof.
  induction idxs as [|idx idxs IH]; intros used pls H;
    cbn [annotate_from_int] in H.
  - injection H as <-. constructor.
  - destruct (py_getitem prof idx) as [pt|] eqn:E; cbn [bind] in H;
      [|discriminate].
    destruct (annotate_point ax (resolved_index prof idx) pt used)
      as [pl used'] eqn:Ep.
    destruct (annotate_from_int ax prof idxs used') as [pls'|] eqn:Er;
      cbn [bind] in H; [|discriminate].
    injection H as <-. constructor; [|eapply IH; exact Er].
    destruct (annotate_point_fields ax (resolved_index prof idx) pt used)
      as (Hi & Ht & HT).
    assert (Hd : lp_desc (fst (annotate_point ax (resolved_index prof idx)
                                 pt used)) = pt_desc pt).
    { unfold annotate_point. cbv zeta.
      destruct (x_overlap ax (pt_time pt) used); cbv beta iota;
        match goal with
        | |- context [y_overlap ax (pt_temp pt) ?l] =>
            destruct (y_overlap ax (pt_temp pt) l)
        end; reflexivity. }
    rewrite Ep in Hi, Ht, HT, Hd. cbn [fst] in Hi, Ht, HT, Hd.
    split; [|exact Hi].
    f_equal. unfold placement_point. rewrite Ht, HT, Hd.
    now destruct pt as [[t T] d].
Qed.

(** X10: with [key_points] any list of Python ints, the annotation
    loop fails exactly when some key point lies outside
    [-len(profile) <= idx < len(profile)] ([times[idx]] raises
    IndexError; a negative index inside that range counts from the
    end and does not fail).  web.py's chart function fails in that
    case only; MAIN01.py's chart function fails in that case and on
    an empty profile, where [max(times)] raises.  On key points that
    are not negative these functions are the ones used for the
    simulator's output. *)
Theorem chart_index_failures (ax : axes) (prof : list point) (kps : list Z) :
  (annotate_int ax prof kps = None <->
   exists i, In i kps /\
             (Z.of_nat (List.length prof) <= i \/
              i < - Z.of_nat (List.length prof))%Z) /\
  (create_chart_image_int ax prof kps = None <->
   exists i, In i kps /\
             (Z.of_nat (List.length prof) <= i \/
              i < - Z.of_nat (List.length prof))%Z) /\
  (create_chart_png_int ax prof kps = None <->
   prof = [] \/
   exists i, In i kps /\
             (Z.of_nat (List.length prof) <= i \/
              i < - Z.of_nat (List.length prof))%Z) /\
  (forall nat_kps,
     annotate_int ax prof (map Z.of_nat nat_kps) = annotate ax prof nat_kps /\
     create_chart_image_int ax prof (map Z.of_nat nat_kps)
       = create_chart_image ax prof nat_kps /\
     create_chart_png_int ax prof (map Z.of_nat nat_kps)
       = create_chart_png ax prof nat_kps).
Proof.
  assert (Hann : annotate_int ax prof kps = None <->
                 exists i, In i kps /\
                   (Z.of_nat (List.length prof) <= i \/
                    i < - Z.of_nat (List.length prof))%Z).
  { unfold annotate_int. rewrite annotate_from_int_none.
    split; intros (i & Hi & Hnone); exists i;
      (split; [now apply key_indices_int_In | now apply py_getitem_none]). }
  split; [exact Hann|]. split; [|split].
  - unfold create_chart_image_int. rewrite <- Hann.
    destruct (annotate_int ax prof kps); cbn [bind]; split;
      (discriminate || reflexivity).
  - unfold create_chart_png_int. rewrite <- Hann.
    destruct (annotate_int ax prof kps) as [pls|]; cbn [bind].
    + destruct prof as [|pt prof]; cbn [map py_max py_min bind].
      * split; [now left | reflexivity].
      * split; [discriminate | intros [H|H]; discriminate].
    + split; [now right | reflexivity].
  - intro nat_kps.
    assert (Hsame : annotate_int ax prof (map Z.of_nat nat_kps)
                    = annotate ax prof nat_kps).
    { unfold annotate_int, annotate.
      now rewrite key_indices_int_of_nat, annotate_from_int_of_nat. }
    unfold create_chart_image_int, create_chart_image,
      create_chart_png_int, create_chart_png.
    rewrite Hsame. repeat split; reflexivity.
Qed.

(** X11: with [key_points] any list of Python ints, each distinct key
    point is processed once, in increasing order, also when the list
    repeats a value or is out of order, and its placement carries the
    time, temperature and description of the profile point that
    Python's indexing selects for it.  When no key point is negative
    no profile point is annotated twice; a negative key point and the
    non-negative one that names the same point are both processed, so
    that point is then annotated twice. *)
Theorem annotated_key_indices (ax : axes) (prof : list point) (kps : list Z)
    (pls : list label_placement) :
  annotate_int ax prof kps = Some pls ->
  Sorted Z.lt (key_indices_int kps) /\
  NoDup (key_indices_int kps) /\
  (forall i, In i (key_indices_int kps) <-> In i kps) /\
  Forall2 (fun i pl => py_getitem prof i = Some (placement_point pl) /\
                       lp_index pl = resolved_index prof i)
          (key_indices_int kps) pls /\
  ((forall i, In i kps -> (0 <= i)%Z) -> NoDup (map lp_index pls)).
Proof.
  intro Hrun. unfold annotate_int in Hrun.
  pose proof (key_indices_int_sorted kps) as Hs.
  pose proof (sorted_Zlt_NoDup _ Hs) as Hnd.
  pose proof (annotate_from_int_points ax prof _ _ _ Hrun) as Hpts.
  split; [exact Hs|]. split; [exact Hnd|].
  split; [intro i; apply key_indices_int_In|]. split; [exact Hpts|].
  intro Hpos.
  assert (Hpos' : forall i, In i (key_indices_int kps) -> (0 <= i)%Z).
  { intros i Hi. apply Hpos. now apply key_indices_int_In. }
  clear Hrun Hs Hpos. revert Hnd Hpos'.
  induction Hpts as [|i pl idxs pls' [_ Hi] Hrest IH]; intros Hnd Hpos;
    cbn [map]; [constructor|].
  inversion Hnd as [|? ? Hnotin Hnd']. subst.
  constructor.
  - intro Hin. apply Hnotin. apply in_map_iff in Hin.
    destruct Hin as (pl' & Heq & Hpl').
    assert (Hex : exists j, In j idxs /\ lp_index pl' = resolved_index prof j).
    { clear - Hrest Hpl'. induction Hrest as [|j q l l' [_ Hj] _ IHr].
      - contradiction.
      - destruct Hpl' as [<- | Hpl'].
        + exists j. split; [now left | exact Hj].
        + destruct (IHr Hpl') as (j' & Hj' & He). exists j'.
          split; [now right | exact He]. }
    destruct Hex as (j & Hj & Hjres).
    assert (0 <= i)%Z by (apply Hpos; now left).
    assert (0 <= j)%Z by (apply Hpos; now right).
    assert (j = i); [|now subst].
    unfold resolved_index in Hi, Hjres.
    assert ((i <? 0)%Z = false) as Ei by (apply Z.ltb_ge; lia).
    assert ((j <? 0)%Z = false) as Ej by (apply Z.ltb_ge; lia).
    rewrite Ei in Hi. rewrite Ej in Hjres. lia.
  - apply IH; [exact Hnd'|]. intros j Hj. apply Hpos. now right.
Qed.

Lemma annotated_key_indices_witness :
  exists pls,
    annotate_int low_point_axes
      [(0, 3, "a"%string); (1, 50, "b"%string); (2, 90, "c"%string)]
      [2; -1; 2]%Z = Some pls /\
    map lp_index pls = [2; 2]%nat /\
    key_indices_int [2; -1; 2]%Z = [-1; 2]%Z /\
    Forall2 (fun i pl =>
               py_getitem [(0, 3, "a"%string); (1, 50, "b"%string);
                           (2, 90, "c"%string)] i
                 = Some (placement_point pl) /\
               lp_index pl =
                 resolved_index [(0, 3, "a"%string); (1, 50, "b"%string);
                                 (2, 90, "c"%string)] i)
            (key_indices_int [2; -1; 2]%Z) pls.
Proof.
  eexists. split; [vm_compute; reflexivity|]. split; [reflexivity|].
  split; [reflexivity|].
  apply (annotated_key_indices low_point_axes
           [(0, 3, "a"%string); (1, 50, "b"%string); (2, 90, "c"%string)]
           [2; -1; 2]%Z).
  vm_compute; reflexivity.
Defined.

Lemma annotate_from_in_order (ax : axes) :
  forall (post pre : list point) (used : list anchor)
         (pls : list label_placement),
    annotate_from ax (pre ++ post)
      (seq (List.length pre) (List.length post)) used = Some pls ->
    map placement_point pls = post.
Proof.
  induction post as [|pt post IH]; intros pre used pls H.
  - injection H as <-. reflexivity.
  - cbn [List.length seq] in H. apply annotate_from_cons in H.
    destruct H as (pt' & pls' & Hpt & -> & Hrest).
    rewrite nth_error_app2 in Hpt by lia.
    rewrite Nat.sub_diag in Hpt. injection Hpt as <-.
    cbn [map]. f_equal.
    + destruct (annotate_point_fields ax (List.length pre) pt used)
        as (_ & Ht & HT).
      unfold placement_point. rewrite Ht, HT.
      assert (lp_desc (fst (annotate_point ax (List.length pre) pt used))
              = pt_desc pt) as ->.
      { unfold annotate_point. cbv zeta.
        destruct (x_overlap ax (pt_time pt) used); cbv beta iota;
          match goal with
          | |- context [y_overlap ax (pt_temp pt) ?l] =>
              destruct (y_overlap ax (pt_temp pt) l)
          end; reflexivity. }
      now destruct pt as [[t T] d].
    + apply (IH (pre ++ [pt])
                (snd (annotate_point ax (List.length pre) pt used)) pls').
      rewrite <- app_assoc. cbn [app].
      rewrite length_app. cbn [List.length].
      now rewrite Nat.add_1_r.
Qed.

(** X12: the chart step never fails on what the simulator returns.
    For every view, the annotation loop succeeds and makes one
    placement per profile point, in profile order, for exactly that
    point; web.py's chart function succeeds with these placements and
    so does MAIN01.py's, which also sets axis limits. *)
Theorem simulator_output_is_charted (ax : axes) (p : params)
    (prof : list point) (kps : list nat) :
  calculate_temperature_profile p = Some (prof, kps) ->
  exists pls lims,
    annotate ax prof kps = Some pls /\
    map placement_point pls = prof /\
    map lp_index pls = seq 0 (List.length prof) /\
    create_chart_image ax prof kps =
      Some {| chart_labels := pls; chart_limits := None |} /\
    create_chart_png ax prof kps =
      Some {| chart_labels := pls; chart_limits := Some lims |}.
Proof.
  unfold calculate_temperature_profile.
  destruct (run p) as [st|] eqn:E; cbn [bind]; [|discriminate].
  intro H. injection H as <- <-.
  pose proof (run_key_points p st E) as Hk. unfold key_points_enumerate in Hk.
  pose proof (run_profile_nonempty p st E) as Hne.
  assert (Hidx : key_indices (key_points st)
                 = seq 0 (List.length (profile st))).
  { rewrite Hk. apply key_indices_of_sorted, seq_sorted. }
  destruct (annotate ax (profile st) (key_points st)) as [pls|] eqn:Hann.
  - assert (Hann' := Hann). unfold annotate in Hann'. rewrite Hidx in Hann'.
    destruct (annotate_from_indices ax _ _ _ _ Hann') as [Hmap _].
    pose proof (annotate_from_in_order ax (profile st) [] [] pls Hann') as Hpts.
    unfold create_chart_image, create_chart_png. rewrite Hann. cbn [bind].
    destruct (profile st) as [|pt l] eqn:Hp; [contradiction|].
    cbn [map py_max py_min bind].
    eexists pls, _. repeat split; try reflexivity; assumption.
  - exfalso. unfold annotate in Hann. rewrite Hidx in Hann.
    apply annotate_from_none in Hann. destruct Hann as (i & Hi & Hlen).
    apply in_seq in Hi. lia.
Qed.

Lemma simulator_output_is_charted_witness :
  exists pls lims,
    annotate scenario_axes
      [(0, 70, "初始温度开始"%string);
       (0 + (1 # 2), 70, "初始温度结束"%string);
       (0 + (1 # 2) + Qabs (40 - 70) / (4 * 60), 40, "回温温度达到"%string);
       (0 + (1 # 2) + Qabs (40 - 70) / (4 * 60) + (1 # 2), 40,
        "回温结束"%string)]
      [0; 1; 2; 3]%nat = Some pls /\
    map placement_point pls =
      [(0, 70, "初始温度开始"%string);
       (0 + (1 # 2), 70, "初始温度结束"%string);
       (0 + (1 # 2) + Qabs (40 - 70) / (4 * 60), 40, "回温温度达到"%string);
       (0 + (1 # 2) + Qabs (40 - 70) / (4 * 60) + (1 # 2), 40,
        "回温结束"%string)] /\
    map lp_index pls = seq 0 4 /\
    create_chart_image scenario_axes
      [(0, 70, "初始温度开始"%string);
       (0 + (1 # 2), 70, "初始温度结束"%string);
       (0 + (1 # 2) + Qabs (40 - 70) / (4 * 60), 40, "回温温度达到"%string);
       (0 + (1 # 2) + Qabs (40 - 70) / (4 * 60) + (1 # 2), 40,
        "回温结束"%string)]
      [0; 1; 2; 3]%nat =
      Some {| chart_labels := pls; chart_limits := None |} /\
    create_chart_png scenario_axes
      [(0, 70, "初始温度开始"%string);
       (0 + (1 # 2), 70, "初始温度结束"%string);
       (0 + (1 # 2) + Qabs (40 - 70) / (4 * 60), 40, "回温温度达到"%string);
       (0 + (1 # 2) + Qabs (40 - 70) / (4 * 60) + (1 # 2), 40,
        "回温结束"%string)]
      [0; 1; 2; 3]%nat =
      Some {| chart_labels := pls; chart_limits := Some lims |}.
Proof.
  apply (simulator_output_is_charted scenario_axes
           (scenario_with 70 (3 * 60) 0)).
  reflexivity.
Defined.

Lemma x_overlap_iff (ax : axes) (x : Q) (used : list anchor) :
  x_overlap ax x used = true <-> exists u, In u used /\ x_near ax x (fst u).
Proof.
  unfold x_overlap, x_near. rewrite existsb_exists.
  split; intros (u & Hin & H); exists u; (split; [assumption|]);
    now apply Qlt_bool_iff.
Qed.

Lemma annotate_point_anchors (ax : axes) (idx : nat) (pt : point)
    (used : list anchor) (u : anchor) :
  In u (snd (annotate_point ax idx pt used)) <->
  In u used \/
  (lp_overlap (fst (annotate_point ax idx pt used)) = false /\
   u = (pt_time pt, y_inset ax (2 # 100))) \/
  (lp_y_overlap (fst (annotate_point ax idx pt used)) = false /\
   u = (x_inset ax (2 # 100), pt_temp pt)).
Proof.
  destruct (annotate_point_spec ax idx pt used) as (_ & _ & _ & _ & ->).
  cbv zeta.
  destruct (lp_y_overlap (fst (annotate_point ax idx pt used))),
           (lp_overlap (fst (annotate_point ax idx pt used)));
    rewrite ?in_app_iff; cbn [In]; intuition (try discriminate; auto).
Qed.

(** The time-label rule of the loop started on any list [used]. *)
Lemma annotate_from_time_rule (ax : axes) (prof : list point) :
  forall (idxs : list nat) (used : list anchor) (pls : list label_placement),
    annotate_from ax prof idxs used = Some pls ->
    forall (k : nat) (pl : label_placement),
      nth_error pls k = Some pl ->
      (lp_overlap pl = true <->
       (exists u, In u used /\ x_near ax (lp_time pl) (fst u)) \/
       (exists j pj, (j < k)%nat /\ nth_error pls j = Some pj /\
                     lp_overlap pj = false /\
                     x_near ax (lp_time pl) (lp_time pj)) \/
       ((exists j pj, (j < k)%nat /\ nth_error pls j = Some pj /\
                      lp_y_overlap pj = false) /\
        x_near ax (lp_time pl) (x_inset ax (2 # 100)))).
Proof.
  induction idxs as [|idx idxs IH]; intros used pls Hrun k pl Hk.
  - injection Hrun as <-. destruct k; discriminate.
  - apply annotate_from_cons in Hrun.
    destruct Hrun as (pt & pls' & Hpt & -> & Hrest).
    destruct (annotate_point_spec ax idx pt used) as (_ & Hov & _).
    destruct (annotate_point_fields ax idx pt used) as (_ & Htime & _).
    pose proof (annotate_point_anchors ax idx pt used) as Hanch.
    cbv zeta in *.
    set (pl0 := fst (annotate_point ax idx pt used)) in *.
    set (used' := snd (annotate_point ax idx pt used)) in *.
    destruct k as [|k].
    + injection Hk as <-. rewrite Hov, x_overlap_iff, Htime. split.
      * intro H. now left.
      * intros [H | [(j & _ & Hj & _) | [(j & _ & Hj & _) _]]];
          [exact H | lia | lia].
    + cbn [nth_error] in Hk.
      rewrite (IH used' pls' Hrest k pl Hk). split.
      * intros [(u & Hin & Hnear) | [(j & pj & Hj & Hnth & Hpj & Hnear)
                                    | [(j & pj & Hj & Hnth & Hpj) Hnear]]].
        -- apply Hanch in Hin.
           destruct Hin as [Hin | [[E ->] | [E ->]]]; cbn [fst] in Hnear.
           ++ left. eauto.
           ++ right; left. exists 0%nat, pl0. rewrite Htime.
              repeat split; auto. lia.
           ++ right; right. split; [|exact Hnear].
              exists 0%nat, pl0. repeat split; auto. lia.
        -- right; left. exists (S j), pj. repeat split; auto. lia.
        -- right; right. split; [|exact Hnear].
           exists (S j), pj. repeat split; auto. lia.
      * intros [(u & Hin & Hnear) | [(j & pj & Hj & Hnth & Hpj & Hnear)
                                    | [(j & pj & Hj & Hnth & Hpj) Hnear]]].
        -- left. exists u. split; [|exact Hnear]. apply Hanch. now left.
        -- destruct j as [|j].
           ++ injection Hnth as <-. left.
              exists (pt_time pt, y_inset ax (2 # 100)).
              rewrite Htime in Hnear. split; [|exact Hnear].
              apply Hanch. right; left. now split.
           ++ right; left. exists j, pj. repeat split; auto. lia.
        -- destruct j as [|j].
           ++ injection Hnth as <-. left.
              exists (x_inset ax (2 # 100), pt_temp pt).
              split; [|exact Hnear].
              apply Hanch. right; right. now split.
           ++ right; right. split; [|exact Hnear].
              exists j, pj. repeat split; auto. lia.
Qed.

Lemma annotate_from_time_labels (ax : axes) (prof : list point) :
  forall (idxs : list nat) (used : list anchor) (pls : list label_placement),
    annotate_from ax prof idxs used = Some pls ->
    forall pl, In pl pls ->
      lp_time_label pl =
        (lp_time pl,
         if lp_overlap pl then y_inset ax (6 # 100) else y_inset ax (2 # 100)).
Proof.
  induction idxs as [|idx idxs IH]; intros used pls Hrun pl Hin.
  - injection Hrun as <-. contradiction.
  - apply annotate_from_cons in Hrun.
    destruct Hrun as (pt & pls' & Hpt & -> & Hrest).
    destruct Hin as [<-|Hin]; [|eapply IH; eassumption].
    unfold annotate_point. cbv zeta.
    destruct (x_overlap ax (pt_time pt) used); cbv beta iota;
      match goal with
      | |- context [y_overlap ax (pt_temp pt) ?l] =>
          destruct (y_overlap ax (pt_temp pt) l)
      end; reflexivity.
Qed.

(** X13: the time-axis label of a key point is bumped from the 2% to
    the 6% y-inset tier if and only if its time lies within 3% of the
    x-range of the time of an earlier key point whose time label was
    committed, or some earlier temperature label was committed and the
    time lies within 3% of the x-range of the x-position of the
    temperature labels (2% inset from the left limit): the test scans
    the one list that also holds the temperature-label anchors. *)
Theorem time_label_bump_rule (ax : axes) (prof : list point) (kps : list nat)
    (pls : list label_placement) :
  annotate ax prof kps = Some pls ->
  forall (k : nat) (pl : label_placement),
    nth_error pls k = Some pl ->
    (lp_overlap pl = true <->
     (exists j pj, (j < k)%nat /\ nth_error pls j = Some pj /\
                   lp_overlap pj = false /\
                   x_near ax (lp_time pl) (lp_time pj)) \/
     ((exists j pj, (j < k)%nat /\ nth_error pls j = Some pj /\
                    lp_y_overlap pj = false) /\
      x_near ax (lp_time pl) (x_inset ax (2 # 100)))) /\
    lp_time_label pl =
      (lp_time pl,
       if lp_overlap pl then y_inset ax (6 # 100) else y_inset ax (2 # 100)).
Proof.
  intros Hrun k pl Hk. split.
  - rewrite (annotate_from_time_rule ax prof _ _ _ Hrun k pl Hk).
    split; [intros [(u & [] & _) | H]; exact H | intro H; now right].
  - eapply annotate_from_time_labels; [exact Hrun|].
    eapply nth_error_In; eassumption.
Qed.

Lemma time_label_bump_rule_witness :
  exists pl,
    annotate low_point_axes low_point_profile [0%nat] = Some [pl] /\
    lp_overlap pl = false /\
    lp_time_label pl = (lp_time pl, y_inset low_point_axes (2 # 100)).
Proof.
  eexists. split; [vm_compute; reflexivity|]. split; [reflexivity|].
  apply (time_label_bump_rule low_point_axes low_point_profile [0%nat] _
           ltac:(vm_compute; reflexivity) 0%nat).
  reflexivity.
Defined.

(** X14: labels that stay on the first tier keep their distance: two
    key points whose time labels were both committed are at least 3%
    of the x-range apart in time, and two key points whose temperature
    labels were both committed are at least 3% of the y-range apart in
    temperature. *)
Theorem committed_labels_separated (ax : axes) (prof : list point)
    (kps : list nat) (pls : list label_placement) :
  annotate ax prof kps = Some pls ->
  forall (j k : nat) (pj pk : label_placement),
    (j < k)%nat -> nth_error pls j = Some pj -> nth_error pls k = Some pk ->
    (lp_overlap pj = false -> lp_overlap pk = false ->
     label_offset ax <= Qabs (lp_time pk - lp_time pj)) /\
    (lp_y_overlap pj = false -> lp_y_overlap pk = false ->
     y_threshold ax <= Qabs (lp_temp pk - lp_temp pj)).
Proof.
  intros Hrun j k pj pk Hjk Hj Hk. split; intros Hcj Hck.
  - apply Qnot_lt_le. intro Hnear.
    assert (lp_overlap pk = true); [|congruence].
    apply (annotate_from_time_rule ax prof _ _ _ Hrun k pk Hk).
    right; left. exists j, pj. repeat split; assumption.
  - apply Qnot_lt_le. intro Hnear.
    assert (lp_y_overlap pk = true); [|congruence].
    apply (annotate_from_rule ax prof _ _ _ Hrun k pk Hk).
    right; right. exists j, pj. repeat split; assumption.
Qed.

Lemma committed_labels_separated_witness :
  exists pj pk,
    nth_error
      (match annotate scenario_axes
               [(0, 70, "a"%string); (5, 10, "b"%string)] [0; 1]%nat with
       | Some pls => pls
       | None => []
       end) 0 = Some pj /\
    nth_error
      (match annotate scenario_axes
               [(0, 70, "a"%string); (5, 10, "b"%string)] [0; 1]%nat with
       | Some pls => pls
       | None => []
       end) 1 = Some pk /\
    label_offset scenario_axes <= Qabs (lp_time pk - lp_time pj) /\
    y_threshold scenario_axes <= Qabs (lp_temp pk - lp_temp pj).
Proof.
  eexists _, _. split; [vm_compute; reflexivity|].
  split; [vm_compute; reflexivity|].
  destruct (committed_labels_separated scenario_axes
              [(0, 70, "a"%string); (5, 10, "b"%string)] [0; 1]%nat _
              ltac:(vm_compute; reflexivity) 0%nat 1%nat _ _
              ltac:(lia) eq_refl eq_refl) as [Ht HT].
  split; [apply Ht | apply HT]; reflexivity.
Defined.

(** ** Axis limits of MAIN01.py *)

Lemma fold_max_spec (l : list Q) :
  forall m0,
    let m := fold_left (fun m y => if Qlt_bool m y then y else m) l m0 in
    m0 <= m /\ Forall (fun x => x <= m) l /\ (m = m0 \/ In m l).
Proof.
  induction l as [|y l IH]; intro m0; cbn [fold_left].
  - cbv zeta. split; [lra|]. split; [constructor | now left].
  - cbv zeta.
    specialize (IH (if Qlt_bool m0 y then y else m0)). cbv zeta in IH.
    destruct IH as (H1 & H2 & H3).
    destruct (Qlt_bool m0 y) eqn:E.
    + apply Qlt_bool_iff in E. split; [lra|]. split.
      * constructor; assumption.
      * right. destruct H3 as [-> | H3]; [now left | now right].
    + assert (y <= m0).
      { destruct (Qlt_le_dec m0 y) as [Hlt|Hle]; [|exact Hle].
        apply Qlt_bool_iff in Hlt. congruence. }
      split; [exact H1|]. split.
      * constructor; [lra | assumption].
      * destruct H3 as [-> | H3]; [now left | right; now right].
Qed.

Lemma fold_min_spec (l : list Q) :
  forall m0,
    let m := fold_left (fun m y => if Qlt_bool y m then y else m) l m0 in
    m <= m0 /\ Forall (fun x => m <= x) l /\ (m = m0 \/ In m l).
Proof.
  induction l as [|y l IH]; intro m0; cbn [fold_left].
  - cbv zeta. split; [lra|]. split; [constructor | now left].
  - cbv zeta.
    specialize (IH (if Qlt_bool y m0 then y else m0)). cbv zeta in IH.
    destruct IH as (H1 & H2 & H3).
    destruct (Qlt_bool y m0) eqn:E.
    + apply Qlt_bool_iff in E. split; [lra|]. split.
      * constructor; assumption.
      * right. destruct H3 as [-> | H3]; [now left | now right].
    + assert (m0 <= y).
      { destruct (Qlt_le_dec y m0) as [Hlt|Hle]; [|exact Hle].
        apply Qlt_bool_iff in Hlt. congruence. }
      split; [exact H1|]. split.
      * constructor; [lra | assumption].
      * destruct H3 as [-> | H3]; [now left | right; now right].
Qed.

Lemma py_max_spec (l : list Q) (m : Q) :
  py_max l = Some m -> In m l /\ Forall (fun x => x <= m) l.
Proof.
  destruct l as [|x l]; cbn [py_max]; [discriminate|].
  intro H. injection H as <-.
  destruct (fold_max_spec l x) as (H1 & H2 & H3). cbv zeta in *.
  split.
  - destruct H3 as [-> | H3]; [now left | now right].
  - constructor; assumption.
Qed.

Lemma py_min_spec (l : list Q) (m : Q) :
  py_min l = Some m -> In m l /\ Forall (fun x => m <= x) l.
Proof.
  destruct l as [|x l]; cbn [py_min]; [discriminate|].
  intro H. injection H as <-.
  destruct (fold_min_spec l x) as (H1 & H2 & H3). cbv zeta in *.
  split.
  - destruct H3 as [-> | H3]; [now left | now right].
  - constructor; assumption.
Qed.

(** X15: the axis limits MAIN01.py sets after the loop.  The x-axis
    starts at 0 and the lower y-limit is never above 0 nor above any
    temperature of the profile.  The upper limits are 1.15 times the
    largest value, so they contain the curve only when that value is
    not negative: if some temperature is >= 0 every temperature is
    below the upper y-limit, and if some time is >= 0 every time is
    below the upper x-limit; but when all temperatures are negative
    the hottest point lies above the upper y-limit. *)
Theorem chart_axis_limits (ax : axes) (prof : list point) (kps : list nat)
    (ch : chart) :
  create_chart_png ax prof kps = Some ch ->
  exists x1 y0 y1,
    chart_limits ch = Some ((0, x1), (y0, y1)) /\
    y0 <= 0 /\
    Forall (fun pt => y0 <= pt_temp pt) prof /\
    ((exists pt, In pt prof /\ 0 <= pt_temp pt) ->
     Forall (fun pt => pt_temp pt <= y1) prof) /\
    ((exists pt, In pt prof /\ 0 <= pt_time pt) ->
     Forall (fun pt => pt_time pt <= x1) prof) /\
    (Forall (fun pt => pt_temp pt < 0) prof ->
     exists pt, In pt prof /\ y1 < pt_temp pt).
Proof.
  unfold create_chart_png. cbv zeta.
  destruct (annotate ax prof kps) as [pls|]; cbn [bind]; [|discriminate].
  destruct (py_max (map pt_time prof)) as [tmax|] eqn:Et; cbn [bind];
    [|discriminate].
  destruct (py_min (map pt_temp prof)) as [Tmin|] eqn:Emin; cbn [bind];
    [|discriminate].
  destruct (py_max (map pt_temp prof)) as [Tmax|] eqn:Emax; cbn [bind];
    [|discriminate].
  intro H. injection H as <-. cbn [chart_limits].
  apply py_max_spec in Et. destruct Et as [Htin Htall].
  apply py_min_spec in Emin. destruct Emin as [Hminin Hminall].
  apply py_max_spec in Emax. destruct Emax as [Hmaxin Hmaxall].
  rewrite Forall_map in Htall, Hminall, Hmaxall.
  rewrite Forall_forall in Htall, Hminall, Hmaxall.
  eexists _, _, _. split; [reflexivity|].
  assert (Hlow : forall T,
             Tmin <= T ->
             (if Qlt_bool (Tmin * (115 # 100)) 0
              then Tmin * (115 # 100) else 0) <= T /\
             (if Qlt_bool (Tmin * (115 # 100)) 0
              then Tmin * (115 # 100) else 0) <= 0).
  { intros T HT. destruct (Qlt_bool (Tmin * (115 # 100)) 0) eqn:E.
    - apply Qlt_bool_iff in E. split; lra.
    - assert (0 <= Tmin * (115 # 100)).
      { destruct (Qlt_le_dec (Tmin * (115 # 100)) 0) as [Hlt|Hle];
          [|exact Hle].
        apply Qlt_bool_iff in Hlt. congruence. }
      split; lra. }
  split; [apply (Hlow Tmin); lra|].
  split.
  { apply Forall_forall. intros pt Hpt. apply Hlow. now apply Hminall. }
  split.
  { intros (pt0 & Hpt0 & Hpos). apply Forall_forall. intros pt Hpt.
    pose proof (Hmaxall pt Hpt). pose proof (Hmaxall pt0 Hpt0).
    cbn beta in *. lra. }
  split.
  { intros (pt0 & Hpt0 & Hpos). apply Forall_forall. intros pt Hpt.
    pose proof (Htall pt Hpt). pose proof (Htall pt0 Hpt0).
    cbn beta in *. lra. }
  intro Hneg. rewrite Forall_forall in Hneg.
  apply in_map_iff in Hmaxin. destruct Hmaxin as (pt & HT & Hpt).
  exists pt. split; [exact Hpt|].
  specialize (Hneg pt Hpt). cbn beta in Hneg. rewrite HT in *. lra.
Qed.

Lemma chart_axis_limits_witness :
  exists x1 y0 y1,
    Some ((0, - (10) * (115 # 100)),
          (- (30) * (115 # 100), - (10) * (115 # 100)))
      = Some ((0, x1), (y0, y1)) /\
    y0 <= 0 /\
    Forall (fun pt => y0 <= pt_temp pt)
      [(- (10), - (30), "a"%string); (- (20), - (10), "b"%string)] /\
    ((exists pt, In pt [(- (10), - (30), "a"%string);
                        (- (20), - (10), "b"%string)] /\ 0 <= pt_temp pt) ->
     Forall (fun pt => pt_temp pt <= y1)
       [(- (10), - (30), "a"%string); (- (20), - (10), "b"%string)]) /\
    ((exists pt, In pt [(- (10), - (30), "a"%string);
                        (- (20), - (10), "b"%string)] /\ 0 <= pt_time pt) ->
     Forall (fun pt => pt_time pt <= x1)
       [(- (10), - (30), "a"%string); (- (20), - (10), "b"%string)]) /\
    (Forall (fun pt => pt_temp pt < 0)
       [(- (10), - (30), "a"%string); (- (20), - (10), "b"%string)] ->
     exists pt, In pt [(- (10), - (30), "a"%string);
                       (- (20), - (10), "b"%string)] /\ y1 < pt_temp pt).
Proof.
  apply (chart_axis_limits low_point_axes
           [(- (10), - (30), "a"%string); (- (20), - (10), "b"%string)]
           [0%nat]
           {| chart_labels :=
                match annotate low_point_axes
                        [(- (10), - (30), "a"%string);
                         (- (20), - (10), "b"%string)] [0%nat] with
                | Some pls => pls
                | None => []
                end;
              chart_limits :=
                Some ((0, - (10) * (115 # 100)),
                      (- (30) * (115 # 100), - (10) * (115 # 100))) |}).
  reflexivity.
Defined.

(** ** The web form *)

(** X16: for every form submission within the bounds of the widgets
    (durations and tolerances from 0, rates from 0.1 degrees per
    minute, at least one cycle), the simulator succeeds on the
    assembled record, so the error branch of [main] is not taken: the
    profile is not empty, its times never go back, and it has
    [2 + cycles*2 + (cycles-1)*2 + 2] points minus one per skipped
    ramp. *)
Theorem web_form_simulates (typed : params) :
  form_bounds typed ->
  exists prof kps,
    calculate_temperature_profile (to_per_hour typed) = Some (prof, kps) /\
    prof <> [] /\ kps <> [] /\
    nondecreasing_times prof /\
    Z.of_nat (List.length prof) =
      (2 + cycles typed * 2 + (cycles typed - 1) * 2 + 2
       - skipped_ramps (to_per_hour typed))%Z.
Proof.
  intros (Hd & _ & _ & Hh & Hc & Hn).
  assert (Hh' : 0 < heat_rate (to_per_hour typed))
    by (cbn [to_per_hour heat_rate]; lra).
  assert (Hc' : 0 < cool_rate (to_per_hour typed))
    by (cbn [to_per_hour cool_rate]; lra).
  destruct (run_count (to_per_hour typed)) as (st & Hst & Hlen);
    [exact Hn | lra | lra |].
  exists (profile st), (key_points st).
  unfold calculate_temperature_profile. rewrite Hst. cbn [bind].
  split; [reflexivity|].
  pose proof (run_key_points _ _ Hst) as Hk.
  pose proof (run_profile_nonempty _ _ Hst) as Hne.
  pose proof (run_time_ordered (to_per_hour typed) st Hd Hh' Hc' Hst)
    as [Hmono _].
  split; [exact Hne|]. split; [|split; [exact Hmono | exact Hlen]].
  unfold key_points_enumerate in Hk. rewrite Hk.
  destruct (profile st); [contradiction | discriminate].
Qed.

Lemma web_form_simulates_witness :
  exists prof kps,
    calculate_temperature_profile (to_per_hour (scenario_with 70 3 3))
      = Some (prof, kps) /\
    prof <> [] /\ kps <> [] /\
    nondecreasing_times prof /\
    Z.of_nat (List.length prof) =
      (2 + 3 * 2 + (3 - 1) * 2 + 2
       - skipped_ramps (to_per_hour (scenario_with 70 3 3)))%Z.
Proof.
  apply (web_form_simulates (scenario_with 70 3 3)).
  unfold form_bounds, nonnegative_durations.
  repeat split; vm_compute; discriminate.
Defined.
